(** * ZomatoAI: memory store, catalog store and orchestrator

    A shallow embedding of [memory_system.py], [food_database.py] and
    [agent_system.py], followed by the properties of the specification
    that are stated over them.

    Conventions of the embedding.
    - A Python [str] is a [string], one [ascii] per character: the texts
      the functions receive range over the code points below 256, and
      [len], slicing, [find], [strip], [split], [join] and [repr] are
      written out below with Python's behaviour on that range. The two
      literals of the source that lie outside it (the bullet of a summary
      line, the currency sign of a price) stand as their UTF-8 bytes; they
      are only ever concatenated, except in the 500-character preview of a
      formatted table, where the currency sign counts for its bytes.
    - A Python [int] is a [Z]; a [float] is carried by its [repr] text, the
      only thing the code ever does with one is to print it.
    - A [dict] whose iteration order is observable (the preferences, a
      row of a table) is an association list in insertion order.
    - Code that can raise returns a [Res]; only exceptions deriving from
      [Exception] are modelled, since those are the ones the source's
      [except Exception] clauses see.
    - The clock, the file of a user, the two chat sessions and [eval] are
      outside the program: their answers are arguments of the functions
      that consult them. *)

From Stdlib Require Import String Ascii List ZArith Lia Bool Arith.
From Stdlib Require Import DecimalString.
Import ListNotations.
Local Open Scope string_scope.
Local Open Scope list_scope.

Set Implicit Arguments.
Set Warnings "-register-all".

(** ** Exceptions and results *)

Inductive Exc : Type :=
| IndexError (msg : string)
| KeyError (key : string)
| TypeError (msg : string)
| OtherException (msg : string).

(** [str(e)] as the orchestrator prints it in its apology message.
    ([str] of a [KeyError] is the [repr] of the key.) *)
Definition exc_str (e : Exc) : string :=
  match e with
  | IndexError m => m
  | KeyError k => "'" ++ k ++ "'"
  | TypeError m => m
  | OtherException m => m
  end.

Inductive Res (A : Type) : Type :=
| Ok (a : A)
| Raise (e : Exc).
Arguments Ok {A} a.
Arguments Raise {A} e.

Definition bind {A B : Type} (r : Res A) (k : A -> Res B) : Res B :=
  match r with
  | Ok a => k a
  | Raise e => Raise e
  end.

Notation "'do' x <- r ;; k" := (bind r (fun x => k))
  (at level 10, x name, r at level 100, k at level 200).

(** ** Python strings *)

Module PyStr.

Definition nl : string := String (ascii_of_nat 10) EmptyString.

(** [len(s)] *)
Definition len (s : string) : Z := Z.of_nat (String.length s).

(** [str(n)] for a length or a count. *)
Definition str_nat (n : nat) : string := NilEmpty.string_of_uint (Nat.to_uint n).

(** [str(z)] for an [int]. *)
Definition str_int (z : Z) : string := NilEmpty.string_of_int (Z.to_int z).

(** [sep.join(parts)] *)
Definition join (sep : string) (parts : list string) : string := String.concat sep parts.

(** [s.split(c)] for a one-character separator: never the empty list. *)
Fixpoint split (c : ascii) (s : string) : list string :=
  match s with
  | EmptyString => [EmptyString]
  | String a rest =>
      if Ascii.eqb a c then EmptyString :: split c rest
      else match split c rest with
           | [] => [String a EmptyString]
           | w :: ws => String a w :: ws
           end
  end.

(** The characters [str.strip()] removes, among the code points below 256:
    tab, line feed, vertical tab, form feed, carriage return, the four
    separators 0x1c-0x1f, the space, the next-line control 0x85 and the
    no-break space 0xa0. *)
Definition is_space (a : ascii) : bool :=
  let n := nat_of_ascii a in
  (Nat.leb 9 n && Nat.leb n 13) || (Nat.leb 28 n && Nat.leb n 32)
  || Nat.eqb n 133 || Nat.eqb n 160.

Fixpoint lstrip (s : string) : string :=
  match s with
  | EmptyString => EmptyString
  | String a rest => if is_space a then lstrip rest else s
  end.

Fixpoint rstrip (s : string) : string :=
  match s with
  | EmptyString => EmptyString
  | String a rest =>
      match rstrip rest with
      | EmptyString => if is_space a then EmptyString else String a EmptyString
      | r => String a r
      end
  end.

(** [s.strip()] *)
Definition strip (s : string) : string := rstrip (lstrip s).

(** [s.startswith(p)] *)
Definition startswith (s p : string) : bool := String.prefix p s.

(** [s.find(sub)]: the least index at which [sub] occurs, or [-1]. *)
Definition find (s sub : string) : Z :=
  match String.index 0 sub s with
  | Some i => Z.of_nat i
  | None => (-1)%Z
  end.

(** A slice bound as Python resolves it against a length: a negative
    bound counts from the end, and the result is clamped to [0..n]. *)
Definition clamp (n : Z) (i : Z) : Z :=
  if (i <? 0)%Z then Z.max (i + n) 0 else Z.min i n.

(** [s[a:b]] *)
Definition slice (s : string) (a b : Z) : string :=
  let a' := clamp (len s) a in
  let b' := clamp (len s) b in
  if (a' <? b')%Z then String.substring (Z.to_nat a') (Z.to_nat (b' - a')) s
  else EmptyString.

(** [s[:n]] *)
Definition take (n : nat) (s : string) : string := slice s 0 (Z.of_nat n).

(** [bool(s)]: a string is true when it is not empty. *)
Definition truthy (s : string) : bool :=
  match s with EmptyString => false | _ => true end.

End PyStr.

(** ** Python values *)

Inductive PyVal : Type :=
| VNone
| VBool (b : bool)
| VInt (z : Z)
| VFloat (repr : string)
| VStr (s : string)
| VList (items : list PyVal).

Module PyValue.
Import PyStr.

(** [repr] of a string: single quotes, unless the text has a single quote
    and no double quote; a backslash and the chosen quote are escaped, tab,
    line feed and carriage return are written [\t], [\n] and [\r], and any
    other character that is not printable as [\xhh]. *)
Fixpoint has_char (c : ascii) (s : string) : bool :=
  match s with
  | EmptyString => false
  | String a rest => Ascii.eqb a c || has_char c rest
  end.

(** The characters [repr] prints as they are, among the code points below
    256: all but the controls 0x00-0x1f and 0x7f-0x9f, the no-break space
    0xa0 and the soft hyphen 0xad. *)
Definition printable (a : ascii) : bool :=
  let n := nat_of_ascii a in
  negb (Nat.ltb n 32 || (Nat.leb 127 n && Nat.leb n 160) || Nat.eqb n 173).

Definition hex_digit (n : nat) : ascii :=
  ascii_of_nat (if Nat.ltb n 10 then 48 + n else 87 + n).

(** The escape [\xhh] of a character. *)
Definition hex_escape (a : ascii) : string :=
  let n := nat_of_ascii a in
  String "\"%char (String "x"%char
    (String (hex_digit (n / 16)) (String (hex_digit (n mod 16)) EmptyString))).

(** One character inside a [repr] delimited by the quote [q]. *)
Definition escape_char (q a : ascii) : string :=
  if Ascii.eqb a q || Ascii.eqb a "\"%char then String "\"%char (String a EmptyString)
  else if Nat.eqb (nat_of_ascii a) 9 then String "\"%char (String "t"%char EmptyString)
  else if Nat.eqb (nat_of_ascii a) 10 then String "\"%char (String "n"%char EmptyString)
  else if Nat.eqb (nat_of_ascii a) 13 then String "\"%char (String "r"%char EmptyString)
  else if printable a then String a EmptyString
  else hex_escape a.

Fixpoint escape (q : ascii) (s : string) : string :=
  match s with
  | EmptyString => EmptyString
  | String a rest => escape_char q a ++ escape q rest
  end.

Definition repr_str (s : string) : string :=
  let dq := ascii_of_nat 34 in
  let sq := "'"%char in
  if has_char sq s && negb (has_char dq s)
  then String dq (escape dq s ++ String dq EmptyString)
  else String sq (escape sq s ++ String sq EmptyString).

(** [repr(v)]; [str(v)] differs from it on strings only. *)
Fixpoint repr (v : PyVal) : string :=
  match v with
  | VNone => "None"
  | VBool true => "True"
  | VBool false => "False"
  | VInt z => str_int z
  | VFloat r => r
  | VStr s => repr_str s
  | VList items => "[" ++ join ", " (map repr items) ++ "]"
  end.

(** [str(v)], which is what an f-string field prints. *)
Definition str (v : PyVal) : string :=
  match v with
  | VStr s => s
  | _ => repr v
  end.

End PyValue.

(** ** The memory store ([memory_system.py]) *)

Module MemorySystem.
Import PyStr.

(** The entry [add_order] builds. *)
Record Order : Type := mkOrder {
  order_dish_id : string;
  order_dish_name : string;
  order_restaurant : string;
  order_price : PyVal;
  order_timestamp : string
}.

(** The entry [add_feedback] builds. *)
Record Feedback : Type := mkFeedback {
  fb_dish_id : string;
  fb_dish_name : string;
  fb_feedback : string;
  fb_rating : PyVal;
  fb_timestamp : string
}.

(** The [dict] held in [self.memory] and written to the user's file. *)
Record Memory : Type := mkMemory {
  user_id : string;
  order_history : list Order;
  recent_feedbacks : list Feedback;
  consolidated_feedback : string;
  preferences : list (string * PyVal);
  created_at : string
}.

(** A [MemorySystem] object together with the file it owns:
    [user_file] is [None] while the file does not exist. *)
Record t : Type := mkSystem {
  memory : Memory;
  user_file : option Memory
}.

(** [_load_memory]: the stored record when the file exists, a new
    record otherwise. [now] is [datetime.now().isoformat()]. *)
Definition _load_memory (uid : string) (file : option Memory) (now : string) : Memory :=
  match file with
  | Some stored => stored
  | None =>
      {| user_id := uid;
         order_history := [];
         recent_feedbacks := [];
         consolidated_feedback := "";
         preferences := [];
         created_at := now |}
  end.

(** [__init__] *)
Definition init (uid : string) (file : option Memory) (now : string) : t :=
  {| memory := _load_memory uid file now; user_file := file |}.

(** [_save_memory]: the whole record replaces the file. *)
Definition _save_memory (ms : t) : t :=
  {| memory := memory ms; user_file := Some (memory ms) |}.

(** [timestamp] defaults to the clock. *)
Definition default_timestamp (timestamp : option string) (now : string) : string :=
  match timestamp with
  | Some ts => ts
  | None => now
  end.

Definition set_order_history (m : Memory) (l : list Order) : Memory :=
  {| user_id := user_id m; order_history := l;
     recent_feedbacks := recent_feedbacks m;
     consolidated_feedback := consolidated_feedback m;
     preferences := preferences m; created_at := created_at m |}.

Definition set_recent_feedbacks (m : Memory) (l : list Feedback) : Memory :=
  {| user_id := user_id m; order_history := order_history m;
     recent_feedbacks := l;
     consolidated_feedback := consolidated_feedback m;
     preferences := preferences m; created_at := created_at m |}.

Definition set_consolidated_feedback (m : Memory) (s : string) : Memory :=
  {| user_id := user_id m; order_history := order_history m;
     recent_feedbacks := recent_feedbacks m;
     consolidated_feedback := s;
     preferences := preferences m; created_at := created_at m |}.

Definition set_preferences (m : Memory) (p : list (string * PyVal)) : Memory :=
  {| user_id := user_id m; order_history := order_history m;
     recent_feedbacks := recent_feedbacks m;
     consolidated_feedback := consolidated_feedback m;
     preferences := p; created_at := created_at m |}.

(** [add_order] *)
Definition add_order (ms : t) (dish_id dish_name restaurant : string) (price : PyVal)
    (timestamp : option string) (now : string) : t :=
  let timestamp := default_timestamp timestamp now in
  let order := mkOrder dish_id dish_name restaurant price timestamp in
  let m := set_order_history (memory ms) (order_history (memory ms) ++ [order]) in
  _save_memory {| memory := m; user_file := user_file ms |}.

(** The text both the summary and the context print for a feedback entry
    after its marker:
    [{dish_name}: {feedback} (Rating: {rating}/5) - {timestamp[:10]}]. *)
Definition feedback_text (fb : Feedback) : string :=
  fb_dish_name fb ++ ": " ++ fb_feedback fb ++ " " ++
  "(Rating: " ++ PyValue.str (fb_rating fb) ++ "/5) - " ++ take 10 (fb_timestamp fb).

Definition summary_addition (oldest : Feedback) : string :=
  "• " ++ feedback_text oldest.

(** [list.pop(0)] *)
Definition pop0 {A : Type} (l : list A) : Res (A * list A) :=
  match l with
  | [] => Raise (IndexError "pop from empty list")
  | x :: rest => Ok (x, rest)
  end.

(** [_consolidate_oldest_feedback] *)
Definition _consolidate_oldest_feedback (m : Memory) : Res Memory :=
  do popped <- pop0 (recent_feedbacks m) ;;
  let oldest := fst popped in
  let m := set_recent_feedbacks m (snd popped) in
  if truthy (consolidated_feedback m)
  then Ok (set_consolidated_feedback m
             (consolidated_feedback m ++ nl ++ summary_addition oldest))
  else Ok (set_consolidated_feedback m
             ("Older Feedback Summary:" ++ nl ++ summary_addition oldest)).

(** [add_feedback] *)
Definition add_feedback (ms : t) (dish_id dish_name feedback : string) (rating : PyVal)
    (timestamp : option string) (now : string) : Res t :=
  let timestamp := default_timestamp timestamp now in
  let feedback_entry := mkFeedback dish_id dish_name feedback rating timestamp in
  let m := set_recent_feedbacks (memory ms) (recent_feedbacks (memory ms) ++ [feedback_entry]) in
  do m <- (if (10 <? List.length (recent_feedbacks m))%nat
           then _consolidate_oldest_feedback m
           else Ok m) ;;
  Ok (_save_memory {| memory := m; user_file := user_file ms |}).

(** [d[k] = v] on a [dict]: an existing key keeps its place. *)
Fixpoint dict_set (k : string) (v : PyVal) (d : list (string * PyVal)) : list (string * PyVal) :=
  match d with
  | [] => [(k, v)]
  | (k', v') :: rest =>
      if String.eqb k' k then (k, v) :: rest else (k', v') :: dict_set k v rest
  end.

(** [d.update(other)] *)
Definition dict_update (d other : list (string * PyVal)) : list (string * PyVal) :=
  fold_left (fun acc kv => dict_set (fst kv) (snd kv) acc) other d.

(** [update_preferences] *)
Definition update_preferences (ms : t) (prefs : list (string * PyVal)) : t :=
  let m := set_preferences (memory ms) (dict_update (preferences (memory ms)) prefs) in
  _save_memory {| memory := m; user_file := user_file ms |}.

(** [l[-n:]] *)
Definition last_n {A : Type} (n : nat) (l : list A) : list A :=
  skipn (List.length l - n) l.

Definition pref_line (kv : string * PyVal) : string :=
  "  - " ++ fst kv ++ ": " ++ PyValue.str (snd kv).

Definition order_line (o : Order) : string :=
  "  - " ++ order_dish_name o ++ " from " ++ order_restaurant o ++ " " ++
  "on " ++ take 10 (order_timestamp o).

Definition feedback_line (fb : Feedback) : string :=
  "  - " ++ feedback_text fb.

(** The loop [for x in xs: context_parts.append(line(x))]. *)
Definition append_each {A : Type} (line : A -> string) (xs : list A)
    (context_parts : list string) : list string :=
  fold_left (fun parts x => parts ++ [line x]) xs context_parts.

(** [get_memory_context], statement by statement. *)
Definition get_memory_context (ms : t) : string :=
  let m := memory ms in
  let context_parts : list string := [] in
  let context_parts :=
    match preferences m with
    | [] => context_parts
    | _ => append_each pref_line (preferences m) (context_parts ++ ["User Preferences:"])
    end in
  let context_parts :=
    match order_history m with
    | [] => context_parts
    | _ =>
        let context_parts :=
          context_parts ++
          [(nl ++ "Order History (Total: " ++ str_nat (List.length (order_history m)) ++ " orders):")%string] in
        let recent_orders := last_n 5 (order_history m) in
        append_each order_line recent_orders context_parts
    end in
  let context_parts :=
    match recent_feedbacks m with
    | [] => context_parts
    | _ =>
        append_each feedback_line (recent_feedbacks m)
          (context_parts ++
           [(nl ++ "Recent Feedback (Last " ++ str_nat (List.length (recent_feedbacks m)) ++ " items):")%string])
    end in
  let context_parts :=
    if truthy (consolidated_feedback m)
    then context_parts ++ [(nl ++ consolidated_feedback m)%string]
    else context_parts in
  match context_parts with
  | [] => "No previous history."
  | _ => join nl context_parts
  end.

(** [get_order_history], [get_recent_feedbacks] *)
Definition get_order_history (ms : t) : list Order := order_history (memory ms).
Definition get_recent_feedbacks (ms : t) : list Feedback := recent_feedbacks (memory ms).

(** One call of a mutating method, with the clock reading it sees. *)
Inductive Call : Type :=
| AddOrder (dish_id dish_name restaurant : string) (price : PyVal)
           (timestamp : option string) (now : string)
| AddFeedback (dish_id dish_name feedback : string) (rating : PyVal)
              (timestamp : option string) (now : string)
| UpdatePreferences (prefs : list (string * PyVal)).

Definition call (ms : t) (c : Call) : Res t :=
  match c with
  | AddOrder d n r p ts now => Ok (add_order ms d n r p ts now)
  | AddFeedback d n f r ts now => add_feedback ms d n f r ts now
  | UpdatePreferences p => Ok (update_preferences ms p)
  end.

(** A sequence of calls on one object, stopping at the first exception. *)
Fixpoint calls (ms : t) (cs : list Call) : Res t :=
  match cs with
  | [] => Ok ms
  | c :: rest => do ms' <- call ms c ;; calls ms' rest
  end.

(** The entry a call of [add_feedback] inserts. *)
Definition entry_of (d n f : string) (r : PyVal) (ts : option string) (now : string) : Feedback :=
  mkFeedback d n f r (default_timestamp ts now).

(** The feedback entries a sequence of calls inserts, in order. *)
Fixpoint inserted (cs : list Call) : list Feedback :=
  match cs with
  | [] => []
  | AddFeedback d n f r ts now :: rest => entry_of d n f r ts now :: inserted rest
  | _ :: rest => inserted rest
  end.

(** [create_sample_user]'s data, as a sequence of calls at clock [now]. *)
Definition sample_calls (now : string) : list Call :=
  [ AddOrder "D004" "Chicken Biryani" "Biryani Blues" (VInt 350) None now;
    AddFeedback "D004" "Chicken Biryani"
      "Absolutely loved it! The spices were perfect and chicken was tender."
      (VFloat "5.0") None now;
    AddOrder "D006" "Masala Dosa" "South Spice" (VInt 120) None now;
    AddFeedback "D006" "Masala Dosa"
      "Crispy and delicious, but could use more potato filling."
      (VFloat "4.0") None now;
    AddOrder "D001" "Butter Chicken" "Punjab Grill" (VInt 380) None now;
    AddFeedback "D001" "Butter Chicken" "Too creamy for my taste, felt heavy."
      (VFloat "3.0") None now;
    AddOrder "D005" "Veg Hakka Noodles" "Wok Express" (VInt 180) None now;
    AddFeedback "D005" "Veg Hakka Noodles" "Quick and tasty, perfect for a light meal."
      (VFloat "4.5") None now;
    AddOrder "D008" "Chocolate Brownie" "Dessert Dreams" (VInt 150) None now;
    AddFeedback "D008" "Chocolate Brownie" "Rich and decadent! Perfect dessert."
      (VFloat "5.0") None now;
    UpdatePreferences
      [ ("dietary", VStr "Non-Vegetarian");
        ("spice_preference", VStr "Medium to High");
        ("cuisine_favorites", VList [VStr "Biryani"; VStr "South Indian"; VStr "Chinese"]);
        ("budget_range", VStr "₹150-400 per dish") ] ].

(** The calls [create_sample_user] makes, the [i]-th one reading the clock
    as [clock i]. *)
Definition sample_user_calls (clock : nat -> string) : list Call :=
  [ AddOrder "D004" "Chicken Biryani" "Biryani Blues" (VInt 350) None (clock 1);
    AddFeedback "D004" "Chicken Biryani"
      "Absolutely loved it! The spices were perfect and chicken was tender."
      (VFloat "5.0") None (clock 2);
    AddOrder "D006" "Masala Dosa" "South Spice" (VInt 120) None (clock 3);
    AddFeedback "D006" "Masala Dosa"
      "Crispy and delicious, but could use more potato filling."
      (VFloat "4.0") None (clock 4);
    AddOrder "D001" "Butter Chicken" "Punjab Grill" (VInt 380) None (clock 5);
    AddFeedback "D001" "Butter Chicken" "Too creamy for my taste, felt heavy."
      (VFloat "3.0") None (clock 6);
    AddOrder "D005" "Veg Hakka Noodles" "Wok Express" (VInt 180) None (clock 7);
    AddFeedback "D005" "Veg Hakka Noodles" "Quick and tasty, perfect for a light meal."
      (VFloat "4.5") None (clock 8);
    AddOrder "D008" "Chocolate Brownie" "Dessert Dreams" (VInt 150) None (clock 9);
    AddFeedback "D008" "Chocolate Brownie" "Rich and decadent! Perfect dessert."
      (VFloat "5.0") None (clock 10);
    UpdatePreferences
      [ ("dietary", VStr "Non-Vegetarian");
        ("spice_preference", VStr "Medium to High");
        ("cuisine_favorites", VList [VStr "Biryani"; VStr "South Indian"; VStr "Chinese"]);
        ("budget_range", VStr "₹150-400 per dish") ] ].

(** [create_sample_user]: the object for [user_demo_001] over whatever file
    that user has, after the sample calls. *)
Definition create_sample_user (file : option Memory) (clock : nat -> string) : Res t :=
  calls (init "user_demo_001" file (clock 0)) (sample_user_calls clock).

End MemorySystem.

(** ** The catalog store ([food_database.py]) *)

Module FoodDatabase.
Import PyStr.

(** A [pandas.DataFrame]: the column labels and, per row, one cell for
    each label. [pd.DataFrame()] has neither columns nor rows. *)
Record DataFrame : Type := mkDataFrame {
  columns : list string;
  records : list (list PyVal)
}.

Definition empty_df : DataFrame := {| columns := []; records := [] |}.

(** [df.empty]: one of the two axes has length zero. *)
Definition df_empty (df : DataFrame) : bool :=
  match columns df, records df with
  | [], _ => true
  | _, [] => true
  | _, _ => false
  end.

(** [len(df)] *)
Definition df_len (df : DataFrame) : nat := List.length (records df).

(** A row as [iterrows] yields it: the cells under their labels. *)
Definition Series : Type := list (string * PyVal).

Definition iterrows (df : DataFrame) : list Series :=
  map (fun cells => combine (columns df) cells) (records df).

(** [row[label]] *)
Fixpoint getitem (row : Series) (label : string) : Res PyVal :=
  match row with
  | [] => Raise (KeyError label)
  | (k, v) :: rest => if String.eqb k label then Ok v else getitem rest label
  end.

(** [df[[c1, ..., cn]]] for labels the table has: the table cut down to
    those columns, in the order asked. *)
Definition project (labels : list string) (df : DataFrame) : DataFrame :=
  {| columns := labels;
     records :=
       map (fun row =>
              map (fun l => match getitem row l with Ok v => v | Raise _ => VNone end) labels)
           (iterrows df) |}.

Definition seed_columns : list string :=
  [ "dish_id"; "dish_name"; "restaurant"; "cuisine"; "category"; "price";
    "rating"; "dietary"; "spice_level"; "prep_time_mins"; "tags"; "description" ].

(** One [dict] of [foods_data], its values in the order of the keys. *)
Definition dish (dish_id dish_name restaurant cuisine category : string) (price : Z)
    (rating : string) (dietary spice_level : string) (prep_time_mins : Z)
    (tags : list string) (description : string) : list PyVal :=
  [ VStr dish_id; VStr dish_name; VStr restaurant; VStr cuisine; VStr category;
    VInt price; VFloat rating; VStr dietary; VStr spice_level; VInt prep_time_mins;
    VList (map VStr tags); VStr description ].

Definition foods_data : list (list PyVal) :=
  [
    dish "D001" "Butter Chicken" "Punjab Grill" "North Indian" "Main Course"
      380 "4.5" "Non-Vegetarian" "Medium" 25
      ["Creamy"; "Popular"; "Rich"]
      "Tender chicken in rich tomato-butter gravy";
    dish "D002" "Paneer Tikka Masala" "Punjab Grill" "North Indian" "Main Course"
      320 "4.4" "Vegetarian" "Medium" 20
      ["Creamy"; "Popular"; "Protein-Rich"]
      "Grilled cottage cheese in spiced tomato gravy";
    dish "D003" "Margherita Pizza" "Pizza Hub" "Italian" "Main Course"
      280 "4.3" "Vegetarian" "None" 18
      ["Cheesy"; "Classic"; "Quick"]
      "Classic pizza with mozzarella and basil";
    dish "D004" "Chicken Biryani" "Biryani Blues" "Hyderabadi" "Main Course"
      350 "4.7" "Non-Vegetarian" "Medium" 30
      ["Aromatic"; "Filling"; "Traditional"]
      "Fragrant basmati rice with tender chicken";
    dish "D005" "Veg Hakka Noodles" "Wok Express" "Chinese" "Main Course"
      180 "4.2" "Vegetarian" "Medium" 15
      ["Quick"; "Light"; "Stir-Fried"]
      "Stir-fried noodles with vegetables";
    dish "D006" "Masala Dosa" "South Spice" "South Indian" "Main Course"
      120 "4.6" "Vegetarian" "Medium" 20
      ["Crispy"; "Traditional"; "Healthy"]
      "Crispy rice crepe with spiced potato filling";
    dish "D007" "Chicken Fried Rice" "Wok Express" "Chinese" "Main Course"
      220 "4.3" "Non-Vegetarian" "Low" 15
      ["Quick"; "Filling"; "Savory"]
      "Stir-fried rice with chicken and vegetables";
    dish "D008" "Chocolate Brownie" "Dessert Dreams" "Continental" "Dessert"
      150 "4.5" "Vegetarian" "None" 10
      ["Sweet"; "Chocolatey"; "Indulgent"]
      "Rich chocolate brownie with ice cream";
    dish "D009" "Caesar Salad" "Healthy Bites" "Continental" "Appetizer"
      200 "4.1" "Non-Vegetarian" "None" 10
      ["Healthy"; "Fresh"; "Light"]
      "Crisp romaine with Caesar dressing and chicken";
    dish "D010" "Gulab Jamun" "Sweet Tooth" "Indian" "Dessert"
      80 "4.4" "Vegetarian" "None" 5
      ["Sweet"; "Traditional"; "Popular"]
      "Deep-fried milk balls in sugar syrup";
    dish "D011" "Fish Curry" "Coastal Kitchen" "Coastal" "Main Course"
      400 "4.6" "Non-Vegetarian" "High" 25
      ["Spicy"; "Tangy"; "Traditional"]
      "Fresh fish in coconut-based spicy curry";
    dish "D012" "Veg Burger" "Burger Town" "American" "Main Course"
      150 "4.0" "Vegetarian" "Low" 12
      ["Quick"; "Filling"; "Casual"]
      "Vegetable patty with fresh veggies and sauces";
    dish "D013" "Chole Bhature" "Punjabi Zaika" "North Indian" "Main Course"
      140 "4.5" "Vegetarian" "Medium" 20
      ["Filling"; "Traditional"; "Popular"]
      "Spicy chickpea curry with fried bread";
    dish "D014" "Pad Thai" "Thai Basil" "Thai" "Main Course"
      320 "4.4" "Non-Vegetarian" "Medium" 20
      ["Tangy"; "Sweet"; "Exotic"]
      "Stir-fried rice noodles with shrimp and peanuts";
    dish "D015" "Idli Sambar" "South Spice" "South Indian" "Main Course"
      100 "4.5" "Vegetarian" "Low" 15
      ["Healthy"; "Light"; "Traditional"]
      "Steamed rice cakes with lentil soup";
    dish "D016" "Chicken Wings" "Wings & Things" "American" "Appetizer"
      280 "4.3" "Non-Vegetarian" "High" 18
      ["Spicy"; "Crispy"; "Popular"]
      "Crispy chicken wings with hot sauce";
    dish "D017" "Paneer Wrap" "Quick Bites" "Fusion" "Main Course"
      160 "4.2" "Vegetarian" "Medium" 10
      ["Quick"; "Filling"; "Portable"]
      "Grilled paneer with veggies in wrap";
    dish "D018" "Mutton Rogan Josh" "Kashmir Kitchen" "Kashmiri" "Main Course"
      450 "4.7" "Non-Vegetarian" "High" 35
      ["Rich"; "Aromatic"; "Premium"]
      "Tender mutton in aromatic red curry";
    dish "D019" "Mango Lassi" "Lassi Corner" "Indian" "Beverage"
      80 "4.6" "Vegetarian" "None" 5
      ["Refreshing"; "Sweet"; "Cooling"]
      "Yogurt-based mango drink";
    dish "D020" "Veg Thali" "Rajdhani Thali" "Rajasthani" "Main Course"
      300 "4.6" "Vegetarian" "Medium" 25
      ["Complete Meal"; "Variety"; "Traditional"]
      "Complete meal with dal, vegetables, roti, rice, dessert"
  ]%Z.

(** [create_food_database] *)
Definition create_food_database : DataFrame :=
  {| columns := seed_columns; records := foods_data |}.

Section Load.
(** The flat file and pandas' writer and reader of it. *)
Variable CsvFile : Type.
Variable to_csv : DataFrame -> CsvFile.
Variable read_csv : CsvFile -> DataFrame.

(** [save_database_to_csv]: the file after the call. *)
Definition save_database_to_csv (df : DataFrame) : option CsvFile := Some (to_csv df).

(** [load_database_from_csv] *)
Definition load_database_from_csv (file : CsvFile) : DataFrame := read_csv file.

(** [get_food_database]: the table returned and the file afterwards.
    [db_path] is [None] while the file does not exist. *)
Definition get_food_database (db_path : option CsvFile) : DataFrame * option CsvFile :=
  match db_path with
  | Some file => (load_database_from_csv file, db_path)
  | None =>
      let df := create_food_database in
      (df, save_database_to_csv df)
  end.
End Load.

(** *** A model of the writer and the reader

    The file holds a header and rows of text cells (the quoting of the
    format is lossless and left out). The writer prints every cell with
    [str]; the reader types a column as integers when every cell is an
    integer numeral, as floats when every cell is a numeral, and as text
    otherwise. The reader's list of missing-value markers is left out. No
    cell read from a file is a list. *)

Record Csv : Type := mkCsv {
  csv_header : list string;
  csv_lines : list (list string)
}.

Definition to_csv (df : DataFrame) : Csv :=
  {| csv_header := columns df;
     csv_lines := map (map PyValue.str) (records df) |}.

Definition is_digit (a : ascii) : bool :=
  let n := nat_of_ascii a in Nat.leb 48 n && Nat.leb n 57.

Fixpoint all_digits (s : string) : bool :=
  match s with
  | EmptyString => true
  | String a rest => is_digit a && all_digits rest
  end.

Definition unsigned (s : string) : string :=
  match s with
  | String "-" rest => rest
  | _ => s
  end.

Definition is_int_text (s : string) : bool :=
  let u := unsigned s in truthy u && all_digits u.

Fixpoint is_decimal_text (seen_digit : bool) (s : string) : bool :=
  match s with
  | EmptyString => false
  | String "." rest => seen_digit && truthy rest && all_digits rest
  | String a rest => is_digit a && is_decimal_text true rest
  end.

Definition is_float_text (s : string) : bool :=
  is_int_text s || is_decimal_text false (unsigned s).

Fixpoint digits_value (acc : Z) (s : string) : Z :=
  match s with
  | EmptyString => acc
  | String a rest => digits_value (10 * acc + Z.of_nat (nat_of_ascii a - 48)) rest
  end.

Definition int_of_text (s : string) : Z :=
  match s with
  | String "-" rest => (- digits_value 0 rest)%Z
  | _ => digits_value 0 s
  end.

Inductive Dtype : Type := Int64 | Float64 | Object.

Definition dtype_of (cells : list string) : Dtype :=
  if forallb is_int_text cells then Int64
  else if forallb is_float_text cells then Float64
  else Object.

Definition typed (d : Dtype) (cell : string) : PyVal :=
  match d with
  | Int64 => VInt (int_of_text cell)
  | Float64 => VFloat (if is_int_text cell then cell ++ ".0" else cell)
  | Object => VStr cell
  end.

(** The cells of column [k]. *)
Definition column_cells (k : nat) (lines : list (list string)) : list string :=
  map (fun line => nth k line EmptyString) lines.

Definition read_line (dtypes : list Dtype) (line : list string) : list PyVal :=
  map (fun dc => typed (fst dc) (snd dc)) (combine dtypes line).

Definition read_csv (file : Csv) : DataFrame :=
  let dtypes :=
    map (fun k => dtype_of (column_cells k (csv_lines file)))
        (seq 0 (List.length (csv_header file))) in
  {| columns := csv_header file;
     records := map (read_line dtypes) (csv_lines file) |}.

(** The store's load with that writer and reader. *)
Definition load (db_path : option Csv) : DataFrame * option Csv :=
  get_food_database to_csv read_csv db_path.

End FoodDatabase.

(** ** The orchestrator ([agent_system.py]) *)

Module AgentSystem.
Import PyStr.
Import FoodDatabase.
Local Open Scope string_scope.

(** What one [chat.send_message(...)] followed by the checks on its
    result can come to. *)
Inductive SendOutcome : Type :=
| SendRaises (e : Exc)      (** the call, or reading [.text], raises *)
| SendNone                  (** the call returns [None] *)
| SendNoText                (** the object returned has no attribute [text] *)
| SendText (text : string). (** the object returned carries [text] *)

(** A chat session: the hosted model behind it, which sees the turns
    sent so far, and those turns. *)
Record Chat : Type := mkChat {
  model : list string -> string -> SendOutcome;
  sent : list string
}.

(** [chat.send_message(message)] *)
Definition send_message (chat : Chat) (message : string) : SendOutcome * Chat :=
  (model chat (sent chat) message,
   {| model := model chat; sent := (sent chat ++ [message])%list |}).

(** What [eval] hands back to [_execute_pandas_query]. *)
Inductive EvalValue : Type :=
| EDataFrame (df : DataFrame)
| EOther (v : PyVal).

(** What lies outside the orchestrator: the clock ([isoformat] and
    [strftime] of [datetime.now()]) and [eval], on a filter expression
    with [food_df] in scope and on the text of a [tags] cell. *)
Record World : Type := mkWorld {
  now_iso : string;
  now_pretty : string;
  eval_query : string -> DataFrame -> Res EvalValue;
  eval_cell : string -> Res PyVal
}.

(** An [AgentSystem] after [__init__]: the table and the two sessions
    ([pandas_agent] is [None]). *)
Record t : Type := mkAgents {
  food_df : DataFrame;
  query_handler : Chat;
  recommendation_agent : Chat
}.

(** [_extract_xml_content] *)
Definition _extract_xml_content (text tag : string) : option string :=
  let start_tag := "<" ++ tag ++ ">" in
  let end_tag := "</" ++ tag ++ ">" in
  let start_idx := find text start_tag in
  let end_idx := find text end_tag in
  if negb (start_idx =? -1)%Z && negb (end_idx =? -1)%Z
  then
    let start_idx := (start_idx + len start_tag)%Z in
    Some (strip (slice text start_idx end_idx))
  else None.

(** The clean-up of the expression: when it starts with [#], the lines
    that start with [#] are dropped. *)
Definition clean_query (query : string) : string :=
  let query := strip query in
  if startswith query "#"
  then join nl (filter (fun line => negb (startswith (strip line) "#"))
                       (split (ascii_of_nat 10) query))
  else query.

(** [_execute_pandas_query]: the table returned and the lines printed.
    The call always returns here: an exception of [eval] that does not
    derive from [Exception] (an interrupt, [SystemExit]) and a failure of
    [print] itself, with which the source does not return, lie outside the
    embedding. *)
Definition _execute_pandas_query (w : World) (self : t) (query : string)
    : DataFrame * list string :=
  let food_df := food_df self in
  let query := clean_query query in
  match eval_query w query food_df with
  | Ok (EDataFrame result) => (result, [])
  | Ok (EOther _) => (empty_df, [])
  | Raise e =>
      (empty_df,
       [ ("Error executing pandas query: " ++ exc_str e)%string;
         ("Query was: " ++ query)%string ])
  end.

Fixpoint chars (s : string) : list string :=
  match s with
  | EmptyString => []
  | String a rest => String a EmptyString :: chars rest
  end.

Fixpoint strings_of (items : list PyVal) : Res (list string) :=
  match items with
  | [] => Ok []
  | VStr s :: rest => do ss <- strings_of rest ;; Ok (s :: ss)
  | _ :: _ => Raise (TypeError "sequence item: expected str instance")
  end.

(** [', '.join(v)] *)
Definition join_value (v : PyVal) : Res string :=
  match v with
  | VList items => do ss <- strings_of items ;; Ok (join ", " ss)
  | VStr s => Ok (join ", " (chars s))
  | _ => Raise (TypeError "can only join an iterable")
  end.

(** The text one row adds to [formatted]. *)
Definition format_row (w : World) (row : Series) : Res string :=
  do dish_name <- getitem row "dish_name" ;;
  do restaurant <- getitem row "restaurant" ;;
  do cuisine <- getitem row "cuisine" ;;
  do category <- getitem row "category" ;;
  do price <- getitem row "price" ;;
  do rating <- getitem row "rating" ;;
  do dietary <- getitem row "dietary" ;;
  do spice_level <- getitem row "spice_level" ;;
  do description <- getitem row "description" ;;
  do tags <- getitem row "tags" ;;
  do tags <- match tags with
             | VStr s => eval_cell w s
             | _ => Ok tags
             end ;;
  do joined <- join_value tags ;;
  Ok ("**" ++ PyValue.str dish_name ++ "** - " ++ PyValue.str restaurant ++ nl ++
      "  Cuisine: " ++ PyValue.str cuisine ++ " | Category: " ++ PyValue.str category ++ nl ++
      "  Price: ‚Çπ" ++ PyValue.str price ++ " | Rating: " ++ PyValue.str rating ++ "/5" ++ nl ++
      "  Dietary: " ++ PyValue.str dietary ++ " | Spice: " ++ PyValue.str spice_level ++ nl ++
      "  Description: " ++ PyValue.str description ++ nl ++
      "  Tags: " ++ joined ++ nl ++ nl).

Fixpoint format_rows (w : World) (rows : list Series) (formatted : string) : Res string :=
  match rows with
  | [] => Ok formatted
  | row :: rest =>
      do piece <- format_row w row ;;
      format_rows w rest (formatted ++ piece)
  end.

(** [_format_filtered_data] *)
Definition _format_filtered_data (w : World) (df : DataFrame) : Res string :=
  if df_empty df then Ok "No matching dishes found in database."
  else
    let formatted := "Found " ++ str_nat (df_len df) ++ " matching dishes:" ++ nl ++ nl in
    format_rows w (iterrows df) formatted.

(** The [debug_info] dictionary; a key not yet set is [None]. *)
Record DebugInfo : Type := mkDebug {
  query : string;
  timestamp : string;
  database_searched : bool;
  filtered_dishes_count : nat;
  handler_response : option string;
  pandas_query : option string;
  filtered_data_preview : option string;
  final_response : option string
}.

(** What a call of [process_query] leaves behind: the pair it returns
    or the exception that leaves it, the sessions, and the lines
    printed. *)
Record Outcome : Type := mkOutcome {
  result : Res (string * DebugInfo);
  agents : t;
  printed : list string
}.

Definition handler_input (current_time user_query memory_context : string) : string :=
  "Current Time: " ++ current_time ++ nl ++ nl ++
  "User Query: " ++ user_query ++ nl ++ nl ++
  "User Memory Context:" ++ nl ++ memory_context ++ nl ++ nl ++
  "Analyze the query and decide if we need to search the food database.".

Definition recommendation_input (current_time user_query memory_context
    filtered_data_context : string) : string :=
  let recommendation_input :=
    "Current Time: " ++ current_time ++ nl ++ nl ++
    "User Query: " ++ user_query ++ nl ++ nl ++
    "User Memory Context:" ++ nl ++ memory_context ++ nl ++ nl in
  let recommendation_input :=
    if truthy filtered_data_context
    then recommendation_input ++ nl ++ "Available Dishes (from database search):" ++ nl
         ++ filtered_data_context
    else recommendation_input in
  recommendation_input ++ nl ++ nl ++ "Provide your personalized recommendation:".

(** Step 3 of [process_query]: the generation call and what follows it. *)
Definition generate (self : t) (debug_info : DebugInfo) (out : list string)
    (current_time user_query memory_context filtered_data_context : string) : Outcome :=
  let input := recommendation_input current_time user_query memory_context
                 filtered_data_context in
  let (final_response, chat) := send_message (recommendation_agent self) input in
  let self := {| food_df := food_df self; query_handler := query_handler self;
                 recommendation_agent := chat |} in
  match final_response with
  | SendRaises e =>
      mkOutcome (Ok ("Sorry, an error occurred: " ++ exc_str e, debug_info)) self out
  | SendNone | SendNoText =>
      mkOutcome
        (Ok ("Sorry, I couldn't generate recommendations at this moment. Please try again.",
             debug_info)) self out
  | SendText final_text =>
      let debug_info :=
        {| query := query debug_info; timestamp := timestamp debug_info;
           database_searched := database_searched debug_info;
           filtered_dishes_count := filtered_dishes_count debug_info;
           handler_response := handler_response debug_info;
           pandas_query := pandas_query debug_info;
           filtered_data_preview := filtered_data_preview debug_info;
           final_response := Some final_text |} in
      mkOutcome (Ok (final_text, debug_info)) self out
  end.

(** [process_query] (the calls of the logger are left out). The preview
    kept in [debug_info] is cut after 500 characters of the embedding, in
    which the currency sign of a price counts for its bytes. *)
Definition process_query (w : World) (self : t) (user_query memory_context : string)
    : Outcome :=
  let debug_info :=
    {| query := user_query; timestamp := now_iso w;
       database_searched := false; filtered_dishes_count := 0;
       handler_response := None; pandas_query := None;
       filtered_data_preview := None; final_response := None |} in
  let current_time := now_pretty w in
  let input := handler_input current_time user_query memory_context in
  let (handler_response, chat) := send_message (query_handler self) input in
  let self := {| food_df := food_df self; query_handler := chat;
                 recommendation_agent := recommendation_agent self |} in
  match handler_response with
  | SendRaises e =>
      mkOutcome (Ok ("Sorry, an error occurred: " ++ exc_str e, debug_info)) self []
  | SendNone | SendNoText =>
      mkOutcome (Ok ("Sorry, I couldn't process your query. Please try again.", debug_info))
        self []
  | SendText handler_text =>
      let debug_info :=
        {| query := user_query; timestamp := now_iso w;
           database_searched := false; filtered_dishes_count := 0;
           handler_response := Some handler_text; pandas_query := None;
           filtered_data_preview := None; final_response := None |} in
      let pandas_query := _extract_xml_content handler_text "pandas_query" in
      let no_db_needed := _extract_xml_content handler_text "no_database_needed" in
      let filtered_data_context := "" in
      (* [if pandas_query:] holds for a string that is not empty *)
      match pandas_query with
      | Some (String _ _ as pandas_query) =>
          let (filtered_df, out) := _execute_pandas_query w self pandas_query in
          match _format_filtered_data w filtered_df with
          | Raise e => mkOutcome (Raise e) self out
          | Ok filtered_data_context =>
              let debug_info :=
                {| query := user_query; timestamp := now_iso w;
                   database_searched := true;
                   filtered_dishes_count := df_len filtered_df;
                   handler_response := Some handler_text;
                   pandas_query := Some pandas_query;
                   filtered_data_preview := Some (slice filtered_data_context 0 500);
                   final_response := None |} in
              generate self debug_info out current_time user_query memory_context
                filtered_data_context
          end
      | _ =>
          generate self debug_info [] current_time user_query memory_context
            filtered_data_context
      end
  end.

End AgentSystem.

(** ** Concrete surroundings for the examples *)

Module Scenarios.
Import PyStr.
Import FoodDatabase.
Import AgentSystem.
Local Open Scope string_scope.

(** A hosted model that answers every turn with the same text. *)
Definition answers (reply : string) : list string -> string -> SendOutcome :=
  fun _ _ => SendText reply.

(** A hosted model whose call fails. *)
Definition fails (msg : string) : list string -> string -> SendOutcome :=
  fun _ _ => SendRaises (OtherException msg).

(** The rows of a table whose cell under [label] is the text [value]. *)
Definition where_eq (label value : string) (df : DataFrame) : DataFrame :=
  {| columns := columns df;
     records :=
       filter (fun cells =>
                 match getitem (combine (columns df) cells) label with
                 | Ok (VStr s) => String.eqb s value
                 | _ => false
                 end) (records df) |}.

(** [eval] on the few expressions the examples use; any other text is
    taken to be a syntax error. *)
Definition tiny_eval (expression : string) (food_df : DataFrame) : Res EvalValue :=
  if String.eqb expression "food_df[['dish_name', 'price']]"
  then Ok (EDataFrame (project ["dish_name"; "price"] food_df))
  else if String.eqb expression "food_df[food_df['category'] == 'Dessert']"
  then Ok (EDataFrame (where_eq "category" "Dessert" food_df))
  else if String.eqb expression "pd.DataFrame()"
  then Ok (EDataFrame empty_df)
  else if String.eqb expression "len(food_df)"
  then Ok (EOther (VInt (Z.of_nat (df_len food_df))))
  else Raise (OtherException "invalid syntax").

(** [eval] on the text of a list of plain strings, ['a', 'b']. *)
Fixpoint split_items (s : string) (current : string) : list string :=
  match s with
  | EmptyString => [current]
  | String "," (String " " rest) => current :: split_items rest EmptyString
  | String a rest => split_items rest (current ++ String a EmptyString)
  end.

Definition unquote (s : string) : Res PyVal :=
  match s with
  | String "'" rest =>
      match String.length rest with
      | O => Raise (OtherException "invalid syntax")
      | S n =>
          if String.eqb (String.substring n 1 rest) "'"
          then Ok (VStr (String.substring 0 n rest))
          else Raise (OtherException "invalid syntax")
      end
  | _ => Raise (OtherException "invalid syntax")
  end.

Fixpoint unquote_all (items : list string) : Res (list PyVal) :=
  match items with
  | [] => Ok []
  | i :: rest => do v <- unquote i ;; do vs <- unquote_all rest ;; Ok (v :: vs)
  end.

Definition tiny_eval_cell (text : string) : Res PyVal :=
  match text with
  | String "[" rest =>
      match String.length rest with
      | O => Raise (OtherException "invalid syntax")
      | S n =>
          if String.eqb (String.substring n 1 rest) "]"
          then do vs <- unquote_all (split_items (String.substring 0 n rest) EmptyString) ;;
               Ok (VList vs)
          else Raise (OtherException "invalid syntax")
      end
  | _ => Raise (OtherException "invalid syntax")
  end.

Definition world : World :=
  {| now_iso := "2025-03-01T19:30:00";
     now_pretty := "Saturday, March 01, 2025 at 07:30 PM";
     eval_query := tiny_eval;
     eval_cell := tiny_eval_cell |}.

(** An orchestrator over the seed table whose classification session
    answers [classified] and whose generation session answers
    [generated]. *)
Definition orchestrator (classified generated : string) : AgentSystem.t :=
  {| food_df := create_food_database;
     query_handler := {| model := answers classified; sent := ["(classification preamble)"] |};
     recommendation_agent := {| model := answers generated; sent := ["(generation preamble)"] |} |}.

(** The same with the table as read back from the flat file. *)
Definition orchestrator_from_file (classified generated : string) : AgentSystem.t :=
  {| food_df := fst (load (snd (load None)));
     query_handler := {| model := answers classified; sent := ["(classification preamble)"] |};
     recommendation_agent := {| model := answers generated; sent := ["(generation preamble)"] |} |}.

Definition projection_reply : string :=
  "<pandas_query>food_df[['dish_name', 'price']]</pandas_query>".

Definition dessert_reply : string :=
  "<pandas_query>" ++ nl ++ "food_df[food_df['category'] == 'Dessert']" ++ nl ++ "</pandas_query>".

(** A classification answer with no tag at all. *)
Definition untagged_reply : string :=
  "The user is asking about their own order history.".

(** A classification answer whose closing marker comes first. *)
Definition reversed_reply : string :=
  "</pandas_query>food_df<pandas_query>".



End Scenarios.

(** ** Reference definitions for the statements about the memory store *)

Module MemorySpec.
Import PyStr.
Import MemorySystem.
Local Open Scope string_scope.

(** A new user: no file yet. *)
Definition fresh (uid now : string) : MemorySystem.t := init uid None now.

(** What stands before a summary line once it is folded in: the summary
    so far and a line break, or the heading when there is no summary. *)
Definition summary_prefix (consolidated : string) : string :=
  if truthy consolidated then consolidated ++ nl
  else "Older Feedback Summary:" ++ nl.

(** The summary that holds the entries [olds], oldest first. *)
Definition summary_of (olds : list Feedback) : string :=
  fold_left (fun c oldest => summary_prefix c ++ summary_addition oldest) olds "".

(** The four sections of the context, each empty when its data is. *)
Definition preferences_section (m : Memory) : list string :=
  match preferences m with
  | [] => []
  | ps => "User Preferences:" :: map pref_line ps
  end.

Definition orders_section (m : Memory) : list string :=
  match order_history m with
  | [] => []
  | os =>
      (nl ++ "Order History (Total: " ++ str_nat (List.length os) ++ " orders):")%string
      :: map order_line (last_n 5 os)
  end.

Definition feedback_section (m : Memory) : list string :=
  match recent_feedbacks m with
  | [] => []
  | fbs =>
      (nl ++ "Recent Feedback (Last " ++ str_nat (List.length fbs) ++ " items):")%string
      :: map feedback_line fbs
  end.

Definition consolidated_section (m : Memory) : list string :=
  match consolidated_feedback m with
  | EmptyString => []
  | c => [(nl ++ c)%string]
  end.

Definition sections (m : Memory) : list string :=
  (preferences_section m ++ orders_section m ++ feedback_section m
   ++ consolidated_section m)%list.

(** Eleven entries, numbered by their text. *)
Definition numbered (k : nat) : Call :=
  AddFeedback "D004" "Chicken Biryani" (str_nat k) (VInt 5) None "2025-03-01T19:30:00".

Definition eleven : list Call := map numbered (seq 1 11).

(** What a new summary line is appended to: the summary so far, or the
    heading when there is none yet. *)
Definition summary_so_far (consolidated : string) : string :=
  match consolidated with
  | EmptyString => "Older Feedback Summary:"
  | String _ _ => consolidated
  end.

(** The line a folded entry leaves in the summary, spelled out: a bullet,
    the dish name, the comment, the rating out of five and the day. *)
Definition summary_line (fb : Feedback) : string :=
  "• " ++ fb_dish_name fb ++ ": " ++ fb_feedback fb
  ++ " (Rating: " ++ PyValue.str (fb_rating fb) ++ "/5) - " ++ take 10 (fb_timestamp fb).

(** Twelve entries, numbered by their text. *)
Definition twelve : list Call := map numbered (seq 1 12).


(** The orders a sequence of calls places, in order. *)
Fixpoint placed (cs : list Call) : list Order :=
  match cs with
  | [] => []
  | AddOrder d n r p ts now :: rest =>
      mkOrder d n r p (default_timestamp ts now) :: placed rest
  | _ :: rest => placed rest
  end.

(** [d.get(k)] on a [dict]: the value under the first entry with key [k]. *)
Fixpoint dict_get (k : string) (d : list (string * PyVal)) : option PyVal :=
  match d with
  | [] => None
  | (k', v) :: rest => if String.eqb k' k then Some v else dict_get k rest
  end.

(** The keys of a [dict], in iteration order. *)
Definition keys (d : list (string * PyVal)) : list string := map fst d.

(** The size a window of [n] entries has after [k] more insertions: it
    grows up to ten, and a window that is longer than ten stays as it is. *)
Definition window_size (n k : nat) : nat := Nat.max n (Nat.min (n + k) 10).

End MemorySpec.

(** ** Reference definitions for the statements about the orchestrator *)

Module OrchestratorSpec.
Import PyStr.
Import FoodDatabase.
Import AgentSystem.
Local Open Scope string_scope.

(** [sub] occurs in [text] at index [i]. *)
Definition occurs_at (text sub : string) (i : nat) : Prop :=
  exists pre post, text = pre ++ sub ++ post /\ String.length pre = i.

(** [sub] occurs in [text]. *)
Definition contains (text sub : string) : Prop :=
  exists i, occurs_at text sub i.

(** The first occurrence of [sub] in [text] is at index [i]. *)
Definition first_at (text sub : string) (i : nat) : Prop :=
  occurs_at text sub i /\ forall k, (k < i)%nat -> ~ occurs_at text sub k.

Definition start_tag (tag : string) : string := "<" ++ tag ++ ">".
Definition end_tag (tag : string) : string := "</" ++ tag ++ ">".

(** A response carries a tag when it has both its opening and its closing
    marker. *)
Definition has_tag (text tag : string) : Prop :=
  contains text (start_tag tag) /\ contains text (end_tag tag).


(** The orchestrator once the classification session has been sent its
    turn. *)
Definition after_classification (w : World) (self : AgentSystem.t)
    (user_query memory_context : string) : AgentSystem.t :=
  {| food_df := food_df self;
     query_handler :=
       snd (send_message (query_handler self)
              (handler_input (now_pretty w) user_query memory_context));
     recommendation_agent := recommendation_agent self |}.

(** [debug_info] when no filtering took place. *)
Definition unfiltered_debug (w : World) (user_query handler_text : string) : DebugInfo :=
  {| query := user_query; timestamp := now_iso w;
     database_searched := false; filtered_dishes_count := 0;
     handler_response := Some handler_text; pandas_query := None;
     filtered_data_preview := None; final_response := None |}.

(** The generation stage entered with no filtered rows. *)
Definition unfiltered (w : World) (self : AgentSystem.t)
    (user_query memory_context handler_text : string) : Outcome :=
  generate (after_classification w self user_query memory_context)
    (unfiltered_debug w user_query handler_text) []
    (now_pretty w) user_query memory_context "".

(** The turn the generation session receives when there are no filtered
    rows: no section of available dishes. *)
Definition plain_recommendation_input (w : World) (user_query memory_context : string)
    : string :=
  "Current Time: " ++ now_pretty w ++ nl ++ nl ++
  "User Query: " ++ user_query ++ nl ++ nl ++
  "User Memory Context:" ++ nl ++ memory_context ++ nl ++ nl ++
  nl ++ nl ++ "Provide your personalized recommendation:".

(** The answer of the classification session to the turn of this call. *)
Definition classification (w : World) (self : AgentSystem.t)
    (user_query memory_context : string) : SendOutcome :=
  fst (send_message (query_handler self)
         (handler_input (now_pretty w) user_query memory_context)).




(** The labels [_format_filtered_data] reads from a row before [tags]. *)
Definition format_labels : list string :=
  [ "dish_name"; "restaurant"; "cuisine"; "category"; "price"; "rating";
    "dietary"; "spice_level"; "description" ].

(** A value [', '.join] accepts: a list of strings, or a string. *)
Definition joinable (v : PyVal) : Prop :=
  (exists ss, v = VList (map VStr ss)) \/ (exists s, v = VStr s).

(** A row the formatting goes through: it has the nine labels and a
    [tags] cell that is joinable, or a text that [eval] turns into something
    joinable. *)
Definition formattable (w : World) (row : Series) : Prop :=
  Forall (fun label => exists v, getitem row label = Ok v) format_labels /\
  exists tags,
    getitem row "tags" = Ok tags /\
    match tags with
    | VStr s => exists v, eval_cell w s = Ok v /\ joinable v
    | _ => joinable tags
    end.

(** The text of the tags of a row, when its [tags] cell is a list of
    strings or a text that [eval] turns into one: the strings, joined by a
    comma and a space. *)
Definition tags_text (w : World) (row : Series) (text : string) : Prop :=
  exists tags ss,
    getitem row "tags" = Ok tags /\
    (tags = VList (map VStr ss) \/
     exists s, tags = VStr s /\ eval_cell w s = Ok (VList (map VStr ss))) /\
    text = join ", " ss.

(** The block [_format_filtered_data] prints for a row, spelled out. *)
Definition block_of (w : World) (row : Series) (piece : string) : Prop :=
  exists dish_name restaurant cuisine category price rating dietary spice_level
         description tags,
    getitem row "dish_name" = Ok dish_name /\
    getitem row "restaurant" = Ok restaurant /\
    getitem row "cuisine" = Ok cuisine /\
    getitem row "category" = Ok category /\
    getitem row "price" = Ok price /\
    getitem row "rating" = Ok rating /\
    getitem row "dietary" = Ok dietary /\
    getitem row "spice_level" = Ok spice_level /\
    getitem row "description" = Ok description /\
    tags_text w row tags /\
    piece =
      "**" ++ PyValue.str dish_name ++ "** - " ++ PyValue.str restaurant ++ nl ++
      "  Cuisine: " ++ PyValue.str cuisine ++ " | Category: " ++ PyValue.str category ++ nl ++
      "  Price: ‚Çπ" ++ PyValue.str price ++ " | Rating: " ++ PyValue.str rating ++ "/5" ++ nl ++
      "  Dietary: " ++ PyValue.str dietary ++ " | Spice: " ++ PyValue.str spice_level ++ nl ++
      "  Description: " ++ PyValue.str description ++ nl ++
      "  Tags: " ++ tags ++ nl ++ nl.

(** A row with the nine labels and tags that have a text. *)
Definition complete (w : World) (row : Series) : Prop :=
  Forall (fun label => exists v, getitem row label = Ok v) format_labels /\
  exists text, tags_text w row text.

(** The heading of a formatted table that is not empty. *)
Definition found_heading (df : DataFrame) : string :=
  "Found " ++ str_nat (df_len df) ++ " matching dishes:" ++ nl ++ nl.


(** A text that does not start with white space. *)
Definition no_lead (s : string) : Prop :=
  match s with
  | EmptyString => True
  | String a _ => is_space a = false
  end.


End OrchestratorSpec.

(** * Facts *)

Local Open Scope nat_scope.

(** ** Strings and lists *)

Lemma append_assoc (a b c : string) : ((a ++ b) ++ c = a ++ b ++ c)%string.
Proof. induction a as [|x a IH]; simpl; [reflexivity | now rewrite IH]. Qed.

Lemma append_empty_r (a : string) : (a ++ "" = a)%string.
Proof. induction a as [|x a IH]; simpl; [reflexivity | now rewrite IH]. Qed.

Lemma length_append (a b : string) :
  String.length (a ++ b) = String.length a + String.length b.
Proof. induction a as [|x a IH]; simpl; [reflexivity | now rewrite IH]. Qed.

Lemma skipn_succ_tl {A : Type} (k : nat) (l : list A) : skipn (S k) l = tl (skipn k l).
Proof.
  revert l; induction k as [|k IH]; intros l.
  - destruct l; reflexivity.
  - destruct l as [|x l]; [reflexivity|]. change (skipn (S k) l = tl (skipn k l)). apply IH.
Qed.

Lemma last_n_short {A : Type} (n : nat) (l : list A) :
  List.length l <= n -> MemorySystem.last_n n l = l.
Proof.
  intros H. unfold MemorySystem.last_n.
  replace (List.length l - n) with 0 by lia. reflexivity.
Qed.

Lemma last_n_length {A : Type} (n : nat) (l : list A) :
  List.length (MemorySystem.last_n n l) = Nat.min n (List.length l).
Proof. unfold MemorySystem.last_n. rewrite length_skipn. lia. Qed.

Lemma last_n_suffix {A : Type} (n : nat) (l : list A) :
  l = firstn (List.length l - n) l ++ MemorySystem.last_n n l.
Proof. unfold MemorySystem.last_n. symmetry. apply firstn_skipn. Qed.

(** Appending to a list of which the last [n] are kept: the kept part
    grows until it has [n] entries, then loses its head. *)
Lemma last_n_snoc {A : Type} (n : nat) (l : list A) (x : A) :
  MemorySystem.last_n n (l ++ [x]) =
  if n <? List.length (MemorySystem.last_n n l ++ [x])
  then tl (MemorySystem.last_n n l ++ [x])
  else MemorySystem.last_n n l ++ [x].
Proof.
  rewrite length_app, last_n_length. simpl.
  destruct (Nat.ltb_spec n (Nat.min n (List.length l) + 1)) as [Hlt | Hge].
  - assert (Hn : n <= List.length l) by lia.
    unfold MemorySystem.last_n. rewrite length_app. simpl.
    replace (List.length l + 1 - n) with (S (List.length l - n)) by lia.
    rewrite skipn_succ_tl. rewrite skipn_app.
    replace (List.length l - n - List.length l) with 0 by lia. reflexivity.
  - assert (Hn : List.length l < n) by lia.
    rewrite (@last_n_short A n l) by lia.
    apply last_n_short. rewrite length_app. simpl. lia.
Qed.

(** ** The memory store *)

Section MemoryFacts.
Import PyStr.
Import MemorySystem.
Import MemorySpec.

Lemma calls_app (ms : MemorySystem.t) (cs1 cs2 : list Call) :
  calls ms (cs1 ++ cs2) = bind (calls ms cs1) (fun ms' => calls ms' cs2).
Proof.
  revert ms; induction cs1 as [|c cs1 IH]; intros ms; simpl; [reflexivity|].
  destruct (call ms c) as [ms'|e]; simpl; [apply IH | reflexivity].
Qed.

Lemma inserted_app (cs1 cs2 : list Call) :
  inserted (cs1 ++ cs2) = inserted cs1 ++ inserted cs2.
Proof.
  induction cs1 as [|c cs1 IH]; simpl; [reflexivity|].
  destruct c; simpl; now rewrite IH.
Qed.

(** Folding the head of a window into the summary. *)
Lemma consolidate_oldest (m : Memory) (oldest : Feedback) (rest : list Feedback) :
  recent_feedbacks m = oldest :: rest ->
  _consolidate_oldest_feedback m =
  Ok (set_consolidated_feedback (set_recent_feedbacks m rest)
        (summary_prefix (consolidated_feedback m) ++ summary_addition oldest)).
Proof.
  intros H. unfold _consolidate_oldest_feedback, summary_prefix. rewrite H. simpl.
  destruct (consolidated_feedback m) as [|a c]; simpl; [reflexivity|].
  now rewrite append_assoc.
Qed.

(** [add_feedback] below the capacity: the entry is appended, nothing else. *)
Lemma add_feedback_below (ms : MemorySystem.t) (d n f : string) (r : PyVal)
    (ts : option string) (now : string) :
  List.length (recent_feedbacks (memory ms)) < 10 ->
  add_feedback ms d n f r ts now =
  Ok (_save_memory
        {| memory := set_recent_feedbacks (memory ms)
                       (recent_feedbacks (memory ms) ++ [entry_of d n f r ts now]);
           user_file := user_file ms |}).
Proof.
  intros H. unfold add_feedback. cbn [set_recent_feedbacks recent_feedbacks].
  rewrite length_app. simpl.
  destruct (Nat.ltb_spec 10 (List.length (recent_feedbacks (memory ms)) + 1)); [lia|].
  reflexivity.
Qed.

(** [add_feedback] on a window of ten or more: the head leaves the window
    for the summary. *)
Lemma add_feedback_overflow (ms : MemorySystem.t) (d n f : string) (r : PyVal)
    (ts : option string) (now : string) (oldest : Feedback) (rest : list Feedback) :
  recent_feedbacks (memory ms) = oldest :: rest ->
  10 <= List.length (oldest :: rest) ->
  add_feedback ms d n f r ts now =
  Ok (_save_memory
        {| memory :=
             set_consolidated_feedback
               (set_recent_feedbacks (memory ms) (rest ++ [entry_of d n f r ts now]))
               (summary_prefix (consolidated_feedback (memory ms)) ++ summary_addition oldest);
           user_file := user_file ms |}).
Proof.
  intros Hw Hlen. unfold add_feedback. cbn [set_recent_feedbacks recent_feedbacks].
  rewrite length_app, Hw. simpl in Hlen |- *.
  destruct (Nat.ltb_spec 10 (S (List.length rest + 1))); [|lia].
  erewrite consolidate_oldest by (simpl; reflexivity).
  reflexivity.
Qed.

(** [add_feedback] never raises: the window it pops from holds the entry
    just appended. *)
Lemma add_feedback_returns (ms : MemorySystem.t) (d n f : string) (r : PyVal)
    (ts : option string) (now : string) :
  exists ms', add_feedback ms d n f r ts now = Ok ms'.
Proof.
  destruct (Nat.lt_ge_cases (List.length (recent_feedbacks (memory ms))) 10) as [Hlt | Hge].
  - eexists. apply add_feedback_below. exact Hlt.
  - destruct (recent_feedbacks (memory ms)) as [|oldest rest] eqn:Hw; [simpl in Hge; lia|].
    eexists. eapply add_feedback_overflow; eauto.
Qed.

(** Every call leaves the record it produced in the user's file. *)
Lemma call_persists (ms ms' : MemorySystem.t) (c : Call) :
  call ms c = Ok ms' -> user_file ms' = Some (memory ms').
Proof.
  destruct c as [d n r p ts t | d n f r ts t | p]; simpl.
  - intros H; injection H as <-. reflexivity.
  - unfold add_feedback.
    match goal with |- context [bind ?r _] => destruct r as [m|e] end; simpl;
      [intros H; injection H as <-; reflexivity | discriminate].
  - intros H; injection H as <-. reflexivity.
Qed.

Lemma call_returns (ms : MemorySystem.t) (c : Call) : exists ms', call ms c = Ok ms'.
Proof.
  destruct c; simpl; eauto using add_feedback_returns.
Qed.

Lemma calls_returns (cs : list Call) (ms : MemorySystem.t) : exists ms', calls ms cs = Ok ms'.
Proof.
  revert ms; induction cs as [|c cs IH]; intros ms; simpl; [eauto|].
  destruct (call_returns ms c) as [ms1 H1]. rewrite H1. simpl. apply IH.
Qed.

(** The summary grows by one entry when one more old entry is folded in. *)
Lemma summary_of_snoc (olds : list Feedback) (oldest : Feedback) :
  summary_of (olds ++ [oldest]) =
  (summary_prefix (summary_of olds) ++ summary_addition oldest)%string.
Proof. unfold summary_of. rewrite fold_left_app. reflexivity. Qed.

(** What folding an entry in makes of the summary, to the letter. *)
Lemma summary_step_text (c : string) (oldest : Feedback) :
  (summary_prefix c ++ summary_addition oldest)%string =
  (summary_so_far c
   ++ nl ++ "• " ++ fb_dish_name oldest ++ ": " ++ fb_feedback oldest
   ++ " (Rating: " ++ PyValue.str (fb_rating oldest) ++ "/5) - "
   ++ take 10 (fb_timestamp oldest))%string.
Proof.
  unfold summary_prefix. destruct c as [|a c]; [reflexivity|].
  cbn [truthy]. rewrite append_assoc. reflexivity.
Qed.

Lemma summary_addition_line (fb : Feedback) : summary_addition fb = summary_line fb.
Proof. reflexivity. Qed.

Lemma calls_one (ms : MemorySystem.t) (c : Call) : calls ms [c] = call ms c.
Proof. simpl. destruct (call ms c); reflexivity. Qed.

(** The state after any calls on a new user, in terms of the entries
    inserted: the window is the last ten of them, the summary holds all
    the earlier ones, oldest first. *)
Lemma calls_on_fresh (uid now : string) (cs : list Call) :
  exists ms,
    calls (fresh uid now) cs = Ok ms /\
    recent_feedbacks (memory ms) = last_n 10 (inserted cs) /\
    consolidated_feedback (memory ms) =
      summary_of (firstn (List.length (inserted cs) - 10) (inserted cs)).
Proof.
  induction cs as [|c cs IH] using rev_ind.
  - exists (fresh uid now). repeat split; reflexivity.
  - destruct IH as (ms & Hrun & Hwin & Hsum).
    rewrite calls_app, Hrun. cbn [bind]. rewrite calls_one, inserted_app.
    destruct c as [d n r p ts t | d n f r ts t | p]; cbn [call inserted].
    + eexists. split; [reflexivity|]. rewrite app_nil_r. split; assumption.
    + set (e := entry_of d n f r ts t). set (ins := inserted cs) in *.
      destruct (Nat.lt_ge_cases (List.length ins) 10) as [Hlt | Hge].
      * rewrite add_feedback_below by (rewrite Hwin, last_n_length; lia).
        eexists. split; [reflexivity|].
        cbn [_save_memory memory set_recent_feedbacks recent_feedbacks consolidated_feedback].
        rewrite Hwin, Hsum, length_app.
        rewrite !last_n_short by (rewrite ?length_app; simpl; lia).
        split; [reflexivity|]. cbn [List.length].
        replace (List.length ins + 1 - 10) with 0 by lia.
        replace (List.length ins - 10) with 0 by lia. reflexivity.
      * destruct (last_n 10 ins) as [|oldest rest] eqn:Hl.
        { apply (f_equal (@List.length _)) in Hl. rewrite last_n_length in Hl.
          cbn [List.length] in Hl. lia. }
        assert (Hlen : List.length (oldest :: rest) = 10).
        { rewrite <- Hl, last_n_length. lia. }
        rewrite (@add_feedback_overflow ms d n f r ts t oldest rest) by (rewrite ?Hwin; auto; lia).
        eexists. split; [reflexivity|].
        cbn [_save_memory memory set_recent_feedbacks set_consolidated_feedback
             recent_feedbacks consolidated_feedback].
        rewrite last_n_snoc, Hl, length_app, Hlen. cbn [List.length Nat.add Nat.ltb Nat.leb tl app].
        split; [reflexivity|].
        rewrite Hsum, length_app. cbn [List.length].
        assert (Hsplit : ins = firstn (List.length ins - 10) ins ++ oldest :: rest).
        { rewrite <- Hl. apply last_n_suffix. }
        replace (List.length ins + 1 - 10) with (S (List.length ins - 10)) by lia.
        rewrite firstn_app.
        replace (S (List.length ins - 10) - List.length ins) with 0 by lia.
        rewrite firstn_O, app_nil_r.
        set (k := List.length ins - 10) in *.
        assert (Hk : List.length (firstn k ins) = k).
        { rewrite length_firstn. subst k. lia. }
        assert (Hfirst : firstn (S k) ins = firstn k ins ++ [oldest]).
        { rewrite Hsplit at 1. rewrite firstn_app, Hk.
          replace (S k - k) with 1 by lia.
          change (firstn 1 (oldest :: rest)) with [oldest].
          now rewrite (@firstn_all2 _ (S k) (firstn k ins)) by lia. }
        rewrite Hfirst.
        rewrite summary_of_snoc. reflexivity.
    + eexists. split; [reflexivity|]. rewrite app_nil_r. split; assumption.
Qed.

End MemoryFacts.

Section MemoryClaims.
Import PyStr.
Import MemorySystem.
Import MemorySpec.

(** C1. On a new user (no file yet), after any sequence of [add_order],
    [add_feedback] and [update_preferences] calls the object exists (no call
    raised) and its window of recent feedback holds at most ten entries.
    Any further [add_feedback] returns and keeps the bound; when the entry
    it appends makes the window exceed ten, exactly the oldest entry of the
    window leaves it (the window loses its head and nothing else) and the
    summary becomes the summary so far (the heading when there was none), a
    line break, and the line of that entry: a bullet, its dish name, its
    comment, its rating out of five and the day of its timestamp; otherwise
    the entry is appended and the summary is untouched. *)
Theorem recent_window_bounded (uid now : string) (cs : list Call) :
  exists ms,
    calls (fresh uid now) cs = Ok ms /\
    List.length (recent_feedbacks (memory ms)) <= 10 /\
    forall (d n f : string) (r : PyVal) (ts : option string) (t : string),
      let window := recent_feedbacks (memory ms) ++ [entry_of d n f r ts t] in
      exists ms',
        add_feedback ms d n f r ts t = Ok ms' /\
        List.length (recent_feedbacks (memory ms')) <= 10 /\
        (10 < List.length window ->
         exists oldest,
           hd_error (recent_feedbacks (memory ms)) = Some oldest /\
           recent_feedbacks (memory ms') = tl window /\
           consolidated_feedback (memory ms') =
             (summary_so_far (consolidated_feedback (memory ms))
              ++ nl ++ "• " ++ fb_dish_name oldest ++ ": " ++ fb_feedback oldest
              ++ " (Rating: " ++ PyValue.str (fb_rating oldest) ++ "/5) - "
              ++ take 10 (fb_timestamp oldest))%string) /\
        (List.length window <= 10 ->
         recent_feedbacks (memory ms') = window /\
         consolidated_feedback (memory ms') = consolidated_feedback (memory ms)).
Proof.
  destruct (calls_on_fresh uid now cs) as (ms & Hrun & Hwin & _).
  assert (Hbound : List.length (recent_feedbacks (memory ms)) <= 10).
  { rewrite Hwin, last_n_length. lia. }
  exists ms. split; [exact Hrun|]. split; [exact Hbound|].
  intros d n f r ts t window.
  destruct (Nat.lt_ge_cases (List.length (recent_feedbacks (memory ms))) 10) as [Hlt | Hge].
  - eexists. split; [apply add_feedback_below; exact Hlt|].
    cbn [_save_memory memory set_recent_feedbacks recent_feedbacks consolidated_feedback].
    fold window.
    assert (Hw : List.length window = S (List.length (recent_feedbacks (memory ms)))).
    { unfold window. rewrite length_app. simpl. lia. }
    split; [lia|]. split; [intros; lia|]. intros _. split; reflexivity.
  - destruct (recent_feedbacks (memory ms)) as [|oldest rest] eqn:Hrec.
    { simpl in Hge. lia. }
    eexists. split; [eapply add_feedback_overflow; [exact Hrec | exact Hge]|].
    cbn [_save_memory memory set_recent_feedbacks set_consolidated_feedback
         recent_feedbacks consolidated_feedback].
    simpl in Hbound, Hge.
    split; [rewrite length_app; simpl; lia|].
    split.
    + intros _. exists oldest. split; [reflexivity|]. split; [reflexivity|].
      apply summary_step_text.
    + unfold window. rewrite length_app. simpl. lia.
Qed.

(** C1 on the eleven numbered entries: the eleventh insertion finds a
    window of ten, drops the entry numbered 1 and leaves its line, to the
    letter, in the summary. *)
Lemma recent_window_bounded_numbered :
  exists ms',
    calls (fresh "user_demo_001" "2025-03-01T19:30:00") eleven = Ok ms' /\
    map fb_feedback (recent_feedbacks (memory ms')) =
      ["2"; "3"; "4"; "5"; "6"; "7"; "8"; "9"; "10"; "11"]%string /\
    consolidated_feedback (memory ms') =
      ("Older Feedback Summary:" ++ nl
       ++ "• Chicken Biryani: 1 (Rating: 5/5) - 2025-03-01")%string.
Proof.
  destruct (recent_window_bounded "user_demo_001" "2025-03-01T19:30:00" (firstn 10 eleven))
    as (ms & Hrun & _ & Hstep).
  destruct (Hstep "D004" "Chicken Biryani" "11" (VInt 5) None "2025-03-01T19:30:00"%string)
    as (ms' & Hadd & _ & Hover & _).
  vm_compute in Hrun. injection Hrun as <-.
  destruct (Hover ltac:(cbn; lia)) as (oldest & Hhd & Hwin & Hsum).
  cbn in Hhd. injection Hhd as <-.
  exists ms'. split.
  - change eleven with (firstn 10 eleven ++ [numbered 11]).
    rewrite calls_app. cbn [bind].
    match goal with
    | |- bind ?r _ = _ =>
        let v := eval vm_compute in r in change r with v
    end.
    cbn [bind]. rewrite calls_one. exact Hadd.
  - split; [rewrite Hwin | rewrite Hsum]; reflexivity.
Defined.

(** After eleven insertions the window holds ten entries, which are not
    all eleven inserted ones. *)
Lemma eleven_inserted_ten_kept :
  exists ms,
    calls (fresh "user_demo_001" "2025-03-01T19:30:00") eleven = Ok ms /\
    List.length (inserted eleven) = 11 /\
    List.length (recent_feedbacks (memory ms)) = 10 /\
    recent_feedbacks (memory ms) <> last_n 11 (inserted eleven).
Proof.
  eexists. split; [vm_compute; reflexivity|].
  split; [reflexivity|]. split; [reflexivity|].
  intros H. apply (f_equal (@List.length _)) in H. vm_compute in H. discriminate H.
Qed.

(** C4. After the calls [cs] on a new user, [N] of which are
    [add_feedback] calls, the window holds exactly [min N 10] entries: the
    most recently inserted ones, [min N 10] of them, in insertion order. *)
Theorem recent_window_most_recent (uid now : string) (cs : list Call) :
  exists ms,
    calls (fresh uid now) cs = Ok ms /\
    let N := List.length (inserted cs) in
    List.length (recent_feedbacks (memory ms)) = Nat.min N 10 /\
    recent_feedbacks (memory ms) = last_n (Nat.min N 10) (inserted cs).
Proof.
  destruct (calls_on_fresh uid now cs) as (ms & Hrun & Hwin & _).
  exists ms. split; [exact Hrun|]. cbv zeta.
  split; [rewrite Hwin, last_n_length; lia|].
  rewrite Hwin.
  destruct (Nat.le_gt_cases 10 (List.length (inserted cs))) as [Hge | Hlt].
  - now rewrite Nat.min_r by exact Hge.
  - rewrite Nat.min_l by lia. rewrite !last_n_short by lia. reflexivity.
Qed.

(** The summary never gets shorter under a call. *)
Lemma call_summary_grows (ms ms' : MemorySystem.t) (c : Call) :
  call ms c = Ok ms' ->
  String.length (consolidated_feedback (memory ms))
  <= String.length (consolidated_feedback (memory ms')).
Proof.
  destruct c as [d n r p ts t | d n f r ts t | p]; simpl.
  - intros H; injection H as <-. simpl. lia.
  - destruct (Nat.lt_ge_cases (List.length (recent_feedbacks (memory ms))) 10) as [Hlt | Hge].
    + rewrite add_feedback_below by exact Hlt. intros H; injection H as <-. simpl. lia.
    + destruct (recent_feedbacks (memory ms)) as [|oldest rest] eqn:Hrec; [simpl in Hge; lia|].
      rewrite (@add_feedback_overflow ms d n f r ts t oldest rest Hrec Hge).
      intros H; injection H as <-. simpl.
      rewrite length_append. unfold summary_prefix.
      destruct (truthy (consolidated_feedback (memory ms))) eqn:Ht.
      * rewrite length_append. lia.
      * destruct (consolidated_feedback (memory ms)); [simpl; lia | discriminate Ht].
  - intros H; injection H as <-. simpl. lia.
Qed.

Lemma calls_summary_grows (cs : list Call) (ms ms' : MemorySystem.t) :
  calls ms cs = Ok ms' ->
  String.length (consolidated_feedback (memory ms))
  <= String.length (consolidated_feedback (memory ms')).
Proof.
  revert ms; induction cs as [|c cs IH]; intros ms; simpl.
  - intros H; injection H as <-. lia.
  - destruct (call ms c) as [ms1|e] eqn:Hc; simpl; [|discriminate].
    intros H. apply call_summary_grows in Hc. apply IH in H. lia.
Qed.

(** C5. A new user on which exactly ten feedback entries were inserted
    holds them all in the window, with no summary. One more [add_feedback]
    removes the first-inserted entry from the window and from nothing else,
    appends the new entry, and makes the summary the heading followed by
    the one line of the entry removed. From then on every sequence of calls
    returns, and along it the summary never gets shorter. *)
Theorem eleventh_feedback (uid now : string) (cs : list Call)
    (d n f : string) (r : PyVal) (ts : option string) (t : string) :
  List.length (inserted cs) = 10 ->
  exists ms ms' first rest,
    calls (fresh uid now) cs = Ok ms /\
    inserted cs = first :: rest /\
    recent_feedbacks (memory ms) = first :: rest /\
    consolidated_feedback (memory ms) = EmptyString /\
    add_feedback ms d n f r ts t = Ok ms' /\
    recent_feedbacks (memory ms') = rest ++ [entry_of d n f r ts t] /\
    consolidated_feedback (memory ms') =
      ("Older Feedback Summary:" ++ nl ++ summary_addition first)%string /\
    forall cs1 cs2 : list Call,
      exists ms1 ms2,
        calls ms' cs1 = Ok ms1 /\ calls ms1 cs2 = Ok ms2 /\
        String.length (consolidated_feedback (memory ms'))
        <= String.length (consolidated_feedback (memory ms1)) /\
        String.length (consolidated_feedback (memory ms1))
        <= String.length (consolidated_feedback (memory ms2)).
Proof.
  intros Hten.
  destruct (calls_on_fresh uid now cs) as (ms & Hrun & Hwin & Hsum).
  rewrite last_n_short in Hwin by lia.
  rewrite Hten in Hsum. change (10 - 10) with 0 in Hsum. rewrite firstn_O in Hsum.
  change (summary_of []) with EmptyString in Hsum.
  destruct (inserted cs) as [|first rest] eqn:Hins; [discriminate Hten|].
  assert (Hadd := @add_feedback_overflow ms d n f r ts t first rest Hwin).
  rewrite Hsum in Hadd. specialize (Hadd ltac:(rewrite Hten; lia)).
  eexists ms, _, first, rest.
  split; [exact Hrun|]. split; [reflexivity|]. split; [exact Hwin|]. split; [exact Hsum|].
  split; [exact Hadd|].
  cbn [_save_memory memory set_recent_feedbacks set_consolidated_feedback
       recent_feedbacks consolidated_feedback].
  split; [reflexivity|]. split.
  { unfold summary_prefix. simpl. reflexivity. }
  intros cs1 cs2.
  match goal with |- context [calls ?m cs1] => destruct (calls_returns cs1 m) as [ms1 H1] end.
  destruct (calls_returns cs2 ms1) as [ms2 H2].
  exists ms1, ms2. split; [exact H1|]. split; [exact H2|].
  split; [apply (calls_summary_grows _ _ H1) | apply (calls_summary_grows _ _ H2)].
Qed.

(** The ten-entry instance of C5: the eleven numbered entries, one after
    the other. *)
Lemma eleventh_feedback_numbered :
  List.length (inserted (firstn 10 eleven)) = 10 /\
  exists ms',
    calls (fresh "user_demo_001" "2025-03-01T19:30:00") eleven = Ok ms' /\
    map fb_feedback (recent_feedbacks (memory ms')) =
      ["2"; "3"; "4"; "5"; "6"; "7"; "8"; "9"; "10"; "11"]%string /\
    consolidated_feedback (memory ms') =
      ("Older Feedback Summary:" ++ nl
       ++ "• Chicken Biryani: 1 (Rating: 5/5) - 2025-03-01")%string.
Proof.
  split; [reflexivity|].
  destruct (@eleventh_feedback "user_demo_001" "2025-03-01T19:30:00" (firstn 10 eleven)
              "D004" "Chicken Biryani" "11" (VInt 5) None "2025-03-01T19:30:00" eq_refl)
    as (ms & ms' & first & rest & Hrun & Hins & _ & _ & Hadd & Hwin & Hsum & _).
  exists ms'.
  injection Hins as <- <-.
  split.
  - change eleven with (firstn 10 eleven ++ [numbered 11]).
    rewrite calls_app, Hrun. cbn [bind]. rewrite calls_one. exact Hadd.
  - split; [rewrite Hwin | rewrite Hsum]; reflexivity.
Defined.

(** C9. Each mutation touches its own part of the record only:
    [add_order] leaves the window, the summary and the preferences as they
    were; [add_feedback] returns and leaves the orders and the preferences
    as they were; [update_preferences] leaves the orders, the window and the
    summary as they were. *)
Theorem mutations_frame (ms : MemorySystem.t) :
  (forall (d n r : string) (p : PyVal) (ts : option string) (t : string),
     let ms' := add_order ms d n r p ts t in
     recent_feedbacks (memory ms') = recent_feedbacks (memory ms) /\
     consolidated_feedback (memory ms') = consolidated_feedback (memory ms) /\
     preferences (memory ms') = preferences (memory ms)) /\
  (forall (d n f : string) (r : PyVal) (ts : option string) (t : string),
     exists ms',
       add_feedback ms d n f r ts t = Ok ms' /\
       order_history (memory ms') = order_history (memory ms) /\
       preferences (memory ms') = preferences (memory ms)) /\
  (forall p : list (string * PyVal),
     let ms' := update_preferences ms p in
     order_history (memory ms') = order_history (memory ms) /\
     recent_feedbacks (memory ms') = recent_feedbacks (memory ms) /\
     consolidated_feedback (memory ms') = consolidated_feedback (memory ms)).
Proof.
  split; [|split].
  - intros d n r p ts t. simpl. repeat split; reflexivity.
  - intros d n f r ts t.
    destruct (Nat.lt_ge_cases (List.length (recent_feedbacks (memory ms))) 10) as [Hlt | Hge].
    + eexists. split; [apply add_feedback_below; exact Hlt|]. simpl. split; reflexivity.
    + destruct (recent_feedbacks (memory ms)) as [|oldest rest] eqn:Hrec; [simpl in Hge; lia|].
      eexists. split; [eapply add_feedback_overflow; eassumption|]. simpl. split; reflexivity.
  - intros p. simpl. repeat split; reflexivity.
Qed.

End MemoryClaims.

Section MemoryContext.
Import PyStr.
Import MemorySystem.
Import MemorySpec.

Lemma append_each_map {A : Type} (line : A -> string) (xs : list A) (parts : list string) :
  append_each line xs parts = parts ++ map line xs.
Proof.
  unfold append_each. revert parts; induction xs as [|x xs IH]; intros parts; simpl.
  - now rewrite app_nil_r.
  - rewrite IH, <- app_assoc. reflexivity.
Qed.

(** The parts [get_memory_context] collects are the four sections, in
    their order. *)
Lemma context_parts_sections (ms : MemorySystem.t) :
  get_memory_context ms =
  match sections (memory ms) with
  | [] => "No previous history."%string
  | parts => join nl parts
  end.
Proof.
  unfold get_memory_context, sections, preferences_section, orders_section,
    feedback_section, consolidated_section.
  rewrite !append_each_map.
  destruct (preferences (memory ms)) as [|p ps];
    destruct (order_history (memory ms)) as [|o os];
    destruct (recent_feedbacks (memory ms)) as [|fb fbs];
    destruct (consolidated_feedback (memory ms)) as [|a c];
    cbn [truthy app]; rewrite ?append_each_map, ?app_nil_r;
    cbn [app]; rewrite <- ?app_assoc; cbn [app]; reflexivity.
Qed.



End MemoryContext.

(** ** Searching a string *)

Section Occurrences.
Import PyStr.
Import OrchestratorSpec.
Local Open Scope string_scope.

Lemma substring_prefix (sub post : string) :
  String.substring 0 (String.length sub) (sub ++ post) = sub.
Proof. induction sub as [|a sub IH]; simpl; [now destruct post | now rewrite IH]. Qed.

Lemma substring_skip (pre text : string) (n : nat) :
  String.substring (String.length pre) n (pre ++ text) = String.substring 0 n text.
Proof. induction pre as [|a pre IH]; simpl; [reflexivity | exact IH]. Qed.

Lemma substring_at_start (sub text : string) :
  String.substring 0 (String.length sub) text = sub -> exists post, text = sub ++ post.
Proof.
  revert text; induction sub as [|a sub IH]; intros text H.
  - exists text. reflexivity.
  - destruct text as [|c text]; simpl in H; [discriminate H|].
    injection H as -> H. destruct (IH _ H) as [post ->]. exists post. reflexivity.
Qed.

(** An occurrence, in the terms of [substring]. *)
Lemma occurs_at_substring (text sub : string) (i : nat) :
  sub <> EmptyString ->
  (occurs_at text sub i <-> String.substring i (String.length sub) text = sub).
Proof.
  intros Hne. split.
  - intros (pre & post & -> & <-).
    rewrite substring_skip. apply substring_prefix.
  - revert text; induction i as [|i IH]; intros text H.
    + destruct (@substring_at_start _ _ H) as [post ->].
      exists EmptyString, post. split; reflexivity.
    + destruct text as [|c text].
      * destruct sub; [congruence | discriminate H].
      * simpl in H. destruct (IH _ H) as (pre & post & -> & <-).
        exists (String c pre), post. split; reflexivity.
Qed.


(** [find] returns [-1] when there is no occurrence, and otherwise the
    index of the first one. *)
Lemma find_cases (text sub : string) :
  sub <> EmptyString ->
  (find text sub = (-1)%Z /\ ~ contains text sub) \/
  (exists i, find text sub = Z.of_nat i /\ first_at text sub i).
Proof.
  intros Hne. unfold find.
  destruct (String.index 0 sub text) as [m|] eqn:Hidx.
  - right. exists m. split; [reflexivity|]. split.
    + apply occurs_at_substring; [exact Hne|]. eapply index_correct1; eassumption.
    + intros k Hk Hocc. apply occurs_at_substring in Hocc; [|exact Hne].
      revert Hocc. eapply index_correct2; [eassumption | lia | exact Hk].
  - left. split; [reflexivity|]. intros [i Hocc].
    apply occurs_at_substring in Hocc; [|exact Hne].
    revert Hocc. eapply index_correct3; [eassumption | exact Hne | lia].
Qed.


Lemma find_absent (text sub : string) :
  sub <> EmptyString -> (find text sub = (-1)%Z <-> ~ contains text sub).
Proof.
  intros Hne. destruct (@find_cases text _ Hne) as [[H Hno] | (m & Hm & Hfirst)].
  - tauto.
  - split; [rewrite Hm; lia|]. intros Hno. destruct Hno. exists m. apply Hfirst.
Qed.



Lemma start_tag_not_empty (tag : string) : start_tag tag <> EmptyString.
Proof. discriminate. Qed.

Lemma end_tag_not_empty (tag : string) : end_tag tag <> EmptyString.
Proof. discriminate. Qed.

End Occurrences.

(** ** The orchestrator: tag extraction and the unfiltered path *)

Section Extraction.
Import PyStr.
Import FoodDatabase.
Import AgentSystem.
Import OrchestratorSpec.
Local Open Scope string_scope.

Lemma extract_unfold (text tag : string) :
  _extract_xml_content text tag =
  if negb (find text (start_tag tag) =? -1)%Z && negb (find text (end_tag tag) =? -1)%Z
  then Some (strip (slice text (find text (start_tag tag) + len (start_tag tag))%Z
                      (find text (end_tag tag))))
  else None.
Proof. reflexivity. Qed.

(** No result exactly when one of the two markers is missing. *)
Lemma extract_none (text tag : string) :
  _extract_xml_content text tag = None <->
  ~ contains text (start_tag tag) \/ ~ contains text (end_tag tag).
Proof.
  rewrite extract_unfold.
  destruct (@find_cases text _ (@start_tag_not_empty tag)) as [[Hs Hns] | (i & Hs & Hi)];
    destruct (@find_cases text _ (@end_tag_not_empty tag)) as [[He Hne] | (j & He & Hj)];
    rewrite Hs, He.
  - simpl. tauto.
  - simpl. tauto.
  - replace (Z.of_nat i =? -1)%Z with false by (symmetry; apply Z.eqb_neq; lia).
    simpl. tauto.
  - replace (Z.of_nat i =? -1)%Z with false by (symmetry; apply Z.eqb_neq; lia).
    replace (Z.of_nat j =? -1)%Z with false by (symmetry; apply Z.eqb_neq; lia).
    simpl. split; [discriminate|].
    intros [H | H]; destruct H; [exists i; apply Hi | exists j; apply Hj].
Qed.

(** No result when the response does not carry the tag. *)
Lemma extract_without_tag (text tag : string) :
  ~ has_tag text tag -> _extract_xml_content text tag = None.
Proof.
  intros Hno. apply extract_none.
  destruct (@find_cases text _ (@start_tag_not_empty tag)) as [[_ Hns] | (i & _ & Hi)];
    [left; exact Hns|].
  destruct (@find_cases text _ (@end_tag_not_empty tag)) as [[_ Hne] | (j & _ & Hj)];
    [right; exact Hne|].
  destruct Hno. split; [exists i; apply Hi | exists j; apply Hj].
Qed.



(** The orchestrator takes the unfiltered path when the extraction gives
    nothing or an empty expression. *)
Lemma process_query_unfiltered (w : World) (self : AgentSystem.t)
    (user_query memory_context text : string) :
  classification w self user_query memory_context = SendText text ->
  _extract_xml_content text "pandas_query" = None \/
  _extract_xml_content text "pandas_query" = Some EmptyString ->
  process_query w self user_query memory_context =
  unfiltered w self user_query memory_context text.
Proof.
  unfold classification, process_query, unfiltered, after_classification, unfiltered_debug.
  unfold send_message. cbn [fst snd]. intros -> [-> | ->]; reflexivity.
Qed.

Lemma plain_input (w : World) (user_query memory_context : string) :
  recommendation_input (now_pretty w) user_query memory_context "" =
  plain_recommendation_input w user_query memory_context.
Proof.
  unfold recommendation_input, plain_recommendation_input. cbn [truthy].
  repeat rewrite append_assoc. reflexivity.
Qed.

(** What the unfiltered path does: nothing is printed, each session gets
    one more turn, the generation session's being the one without rows,
    and the call returns, with the generation session's text when it
    answers. *)
Lemma unfiltered_outcome (w : World) (self : AgentSystem.t)
    (user_query memory_context text : string) :
  let out := unfiltered w self user_query memory_context text in
  printed out = [] /\
  sent (recommendation_agent (agents out)) =
    (sent (recommendation_agent self)
     ++ [plain_recommendation_input w user_query memory_context])%list /\
  sent (query_handler (agents out)) =
    (sent (query_handler self)
     ++ [handler_input (now_pretty w) user_query memory_context])%list /\
  exists reply debug,
    result out = Ok (reply, debug) /\
    database_searched debug = false /\
    filtered_dishes_count debug = 0 /\
    pandas_query debug = None /\
    handler_response debug = Some text /\
    forall final,
      model (recommendation_agent self) (sent (recommendation_agent self))
        (plain_recommendation_input w user_query memory_context) = SendText final ->
      reply = final /\ final_response debug = Some final.
Proof.
  cbv zeta. unfold unfiltered, generate, send_message.
  rewrite plain_input.
  cbn [after_classification recommendation_agent query_handler send_message snd].
  destruct (model (recommendation_agent self) (sent (recommendation_agent self))
              (plain_recommendation_input w user_query memory_context)) as [e | | | final];
    cbn [printed agents result recommendation_agent query_handler sent];
    (split; [reflexivity|]); (split; [reflexivity|]); (split; [reflexivity|]);
    eexists _, _; (split; [reflexivity|]);
    cbn; repeat (split; [reflexivity|]); intros final' H; try discriminate H.
  injection H as <-. split; reflexivity.
Qed.

End Extraction.

Section ExtractionClaims.
Import PyStr.
Import FoodDatabase.
Import AgentSystem.
Import OrchestratorSpec.
Import Scenarios.
Local Open Scope string_scope.


(** C6. When the classification session answers with a text that carries
    neither the filter-expression tag nor the no-filtering tag, the call
    is the generation stage entered with no filtered rows: nothing is
    evaluated or printed, the generation session is sent the turn without a
    section of dishes, and the call returns a pair, whose text is the
    generation session's when it answers and whose [debug_info] says that
    the database was not searched. *)
Theorem untagged_response_proceeds (w : World) (self : AgentSystem.t)
    (user_query memory_context text : string) :
  classification w self user_query memory_context = SendText text ->
  ~ has_tag text "pandas_query" ->
  ~ has_tag text "no_database_needed" ->
  let out := process_query w self user_query memory_context in
  out = unfiltered w self user_query memory_context text /\
  printed out = [] /\
  sent (recommendation_agent (agents out)) =
    (sent (recommendation_agent self)
     ++ [plain_recommendation_input w user_query memory_context])%list /\
  exists reply debug,
    result out = Ok (reply, debug) /\
    database_searched debug = false /\
    filtered_dishes_count debug = 0 /\
    pandas_query debug = None /\
    forall final,
      model (recommendation_agent self) (sent (recommendation_agent self))
        (plain_recommendation_input w user_query memory_context) = SendText final ->
      reply = final /\ final_response debug = Some final.
Proof.
  intros Hc Hfilter _. cbv zeta.
  rewrite (process_query_unfiltered w self user_query memory_context Hc
             (or_introl (extract_without_tag Hfilter))).
  destruct (unfiltered_outcome w self user_query memory_context text)
    as (Hp & Hsent & _ & reply & debug & Hres & Hdb & Hcount & Hq & _ & Hfinal).
  split; [reflexivity|]. split; [exact Hp|]. split; [exact Hsent|].
  exists reply, debug. auto.
Qed.

Lemma untagged_reply_has_no_tag (tag : string) :
  find untagged_reply (start_tag tag) = (-1)%Z -> ~ has_tag untagged_reply tag.
Proof.
  intros H [Hs _]. apply (find_absent untagged_reply (@start_tag_not_empty tag)) in H.
  exact (H Hs).
Qed.

(** C6 on an answer without tags: the call returns what the generation
    session says. *)
Lemma untagged_response_example :
  ~ has_tag untagged_reply "pandas_query" /\
  ~ has_tag untagged_reply "no_database_needed" /\
  exists debug,
    result (process_query world (orchestrator untagged_reply "1. **Chicken Biryani**")
              "What did I order last week?" "No previous history.")
    = Ok ("1. **Chicken Biryani**", debug) /\
    database_searched debug = false.
Proof.
  assert (H1 : ~ has_tag untagged_reply "pandas_query")
    by (apply untagged_reply_has_no_tag; reflexivity).
  assert (H2 : ~ has_tag untagged_reply "no_database_needed")
    by (apply untagged_reply_has_no_tag; reflexivity).
  split; [exact H1|]. split; [exact H2|].
  destruct (@untagged_response_proceeds world (orchestrator untagged_reply "1. **Chicken Biryani**")
              "What did I order last week?" "No previous history." untagged_reply
              eq_refl H1 H2)
    as (_ & _ & _ & reply & debug & Hres & Hdb & _ & _ & Hfinal).
  destruct (Hfinal "1. **Chicken Biryani**" eq_refl) as [-> _].
  exists debug. split; [exact Hres | exact Hdb].
Defined.


(** An answer whose closing marker comes first: the expression extracted
    is empty and the call is the unfiltered one. *)
Example reversed_reply_is_unfiltered :
  _extract_xml_content reversed_reply "pandas_query" = Some EmptyString /\
  process_query world (orchestrator reversed_reply "1. **Chicken Biryani**")
    "anything" "No previous history."
  = unfiltered world (orchestrator reversed_reply "1. **Chicken Biryani**")
      "anything" "No previous history." reversed_reply.
Proof. split; reflexivity. Qed.

End ExtractionClaims.

(** ** The orchestrator: filtering and failures *)

Section FilterClaims.
Import PyStr.
Import FoodDatabase.
Import AgentSystem.
Import OrchestratorSpec.
Import Scenarios.
Local Open Scope string_scope.



(** C3 at a classification answer that selects two columns of the table:
    the filter returns the twenty rows cut down to [dish_name] and [price],
    formatting the first of them looks up [restaurant], and the [KeyError]
    leaves [process_query]; the generation session is never reached. *)
Theorem column_selection_raises :
  let self := orchestrator projection_reply "1. **Butter Chicken**" in
  let out := process_query world self "Show me dish names and prices" "No previous history." in
  _extract_xml_content projection_reply "pandas_query"
    = Some "food_df[['dish_name', 'price']]" /\
  _execute_pandas_query world self "food_df[['dish_name', 'price']]"
    = (project ["dish_name"; "price"] create_food_database, []) /\
  df_len (project ["dish_name"; "price"] create_food_database) = 20 /\
  _format_filtered_data world (project ["dish_name"; "price"] create_food_database)
    = Raise (KeyError "restaurant") /\
  result out = Raise (KeyError "restaurant") /\
  sent (recommendation_agent (agents out)) = sent (recommendation_agent self).
Proof. cbv zeta. repeat split; vm_compute; reflexivity. Qed.

Ltac use_generate Hgen :=
  match goal with
  | |- context [AgentSystem.generate ?s ?d ?o _ _ _ ?c] =>
      let Hq := fresh in
      let H := fresh in
      destruct (Hgen s d o c) as [Hq H]; rewrite Hq;
      split; [reflexivity | right; exact H]
  end.

(** X8. Each session is sent the turn of a call once at most, and the
    classification session exactly once: nothing is retried. *)
Lemma process_query_sends_once (w : World) (self : AgentSystem.t)
    (user_query memory_context : string) :
  let out := process_query w self user_query memory_context in
  sent (query_handler (agents out)) =
    (sent (query_handler self)
     ++ [handler_input (now_pretty w) user_query memory_context])%list /\
  (sent (recommendation_agent (agents out)) = sent (recommendation_agent self) \/
   exists input,
     sent (recommendation_agent (agents out)) =
     (sent (recommendation_agent self) ++ [input])%list).
Proof.
  cbv zeta. unfold process_query, send_message.
  destruct (model (query_handler self) (sent (query_handler self))
              (handler_input (now_pretty w) user_query memory_context)) as [e | | | text];
    try (split; [reflexivity | left; reflexivity]).
  assert (Hgen : forall s d o c,
             let g := generate s d o (now_pretty w) user_query memory_context c in
             query_handler (agents g) = query_handler s /\
             exists input, sent (recommendation_agent (agents g)) =
                           (sent (recommendation_agent s) ++ [input])%list).
  { intros s d o c. cbv zeta. unfold generate, send_message.
    destruct (model (recommendation_agent s) _ _); (split; [reflexivity | eexists; reflexivity]). }
  destruct (_extract_xml_content text "pandas_query") as [[|a q]|].
  - use_generate Hgen.
  - destruct (_execute_pandas_query w _ (String a q)) as [df out].
    destruct (_format_filtered_data w df) as [ctx | e].
    + use_generate Hgen.
    + split; [reflexivity | left; reflexivity].
  - use_generate Hgen.
Qed.

(** X9. A failure of the classification call becomes the result of
    [process_query]: the error's text in an apology when the call raises,
    a fixed apology when it gives back nothing readable; the generation
    session is left alone. *)
Lemma classification_failure_is_returned (w : World) (self : AgentSystem.t)
    (user_query memory_context : string) :
  let out := process_query w self user_query memory_context in
  (forall e,
     classification w self user_query memory_context = SendRaises e ->
     exists debug,
       result out = Ok ("Sorry, an error occurred: " ++ exc_str e, debug) /\
       recommendation_agent (agents out) = recommendation_agent self) /\
  (classification w self user_query memory_context = SendNone \/
   classification w self user_query memory_context = SendNoText ->
   exists debug,
     result out = Ok ("Sorry, I couldn't process your query. Please try again.", debug) /\
     recommendation_agent (agents out) = recommendation_agent self).
Proof.
  cbv zeta. unfold classification, process_query, send_message. cbn [fst].
  split.
  - intros e ->. eexists. split; reflexivity.
  - intros [-> | ->]; eexists; split; reflexivity.
Qed.

(** The generation stage never raises: a failure of its call becomes the
    text it returns. *)
Lemma generate_returns (self : AgentSystem.t) (debug : DebugInfo) (out : list string)
    (current_time user_query memory_context context : string) :
  let g := generate self debug out current_time user_query memory_context context in
  let answer :=
    model (recommendation_agent self) (sent (recommendation_agent self))
      (recommendation_input current_time user_query memory_context context) in
  exists reply debug',
    result g = Ok (reply, debug') /\
    (forall e, answer = SendRaises e -> reply = "Sorry, an error occurred: " ++ exc_str e) /\
    (answer = SendNone \/ answer = SendNoText ->
     reply = "Sorry, I couldn't generate recommendations at this moment. Please try again.") /\
    (forall final, answer = SendText final -> reply = final).
Proof.
  cbv zeta. unfold generate, send_message.
  destruct (model (recommendation_agent self) _ _) as [e | | | final];
    eexists _, _; (split; [reflexivity|]);
    (split; [intros e' H; try discriminate H; now injection H as <- |]);
    (split; [intros [H | H]; try discriminate H; reflexivity |]);
    intros final' H; try discriminate H; now injection H as <-.
Qed.

(** Among the exceptions that derive from [Exception], and with the two
    diagnostic lines of the filter printed without error, an exception
    leaves [process_query] in one case only: the classification answer
    carries a filter expression and formatting the table the filter returned
    raises. *)
Lemma process_query_raises_from_formatting_only (w : World) (self : AgentSystem.t)
    (user_query memory_context : string) (e : Exc) :
  result (process_query w self user_query memory_context) = Raise e ->
  exists text expression,
    classification w self user_query memory_context = SendText text /\
    _extract_xml_content text "pandas_query" = Some expression /\
    expression <> EmptyString /\
    _format_filtered_data w
      (fst (_execute_pandas_query w
              (after_classification w self user_query memory_context) expression))
    = Raise e.
Proof.
  unfold classification, process_query, after_classification, send_message. cbn [fst snd].
  destruct (model (query_handler self) (sent (query_handler self))
              (handler_input (now_pretty w) user_query memory_context)) as [e0 | | | text];
    try discriminate.
  assert (Hgen : forall s d o c,
             result (generate s d o (now_pretty w) user_query memory_context c) <> Raise e).
  { intros s d o c.
    destruct (generate_returns s d o (now_pretty w) user_query memory_context c)
      as (reply & debug' & -> & _). discriminate. }
  destruct (_extract_xml_content text "pandas_query") as [[|a q]|] eqn:Hx.
  - intros H. destruct (Hgen _ _ _ _ H).
  - destruct (_execute_pandas_query w _ (String a q)) as [df out] eqn:Hq.
    destruct (_format_filtered_data w df) as [ctx | e1] eqn:Hf.
    + intros H. destruct (Hgen _ _ _ _ H).
    + cbn [result]. intros H; injection H as ->.
      exists text, (String a q). split; [reflexivity|]. split; [exact Hx|].
      split; [discriminate|]. rewrite Hq. exact Hf.
  - intros H. destruct (Hgen _ _ _ _ H).
Qed.

End FilterClaims.

(** ** The catalog store *)

Section CatalogClaims.
Import FoodDatabase.

(** No cell read from a file is a list. *)
Lemma read_csv_cells_are_scalars (file : Csv) (row : list PyVal) (cell : PyVal) :
  In row (records (read_csv file)) -> In cell row -> forall items, cell <> VList items.
Proof.
  unfold read_csv. cbn [records]. intros Hrow Hcell items ->.
  apply in_map_iff in Hrow. destruct Hrow as (line & <- & _).
  unfold read_line in Hcell. apply in_map_iff in Hcell.
  destruct Hcell as ([d c] & H & _). destruct d; discriminate H.
Qed.

(** C8, as stated, from the store without a file: the first load returns
    the seed table, whose [tags] cells are lists, and writes the file; the
    second load returns the file as read, whose [tags] cells are text. The
    two tables differ. *)
Lemma second_load_differs_without_file :
  let first := load None in
  let second := load (snd first) in
  nth 10 (hd [] (records (fst first))) VNone
    = VList [VStr "Creamy"; VStr "Popular"; VStr "Rich"] /\
  nth 10 (hd [] (records (fst second))) VNone
    = VStr "['Creamy', 'Popular', 'Rich']" /\
  fst first <> fst second.
Proof.
  cbv zeta. split; [reflexivity|]. split; [reflexivity|].
  intros H. apply (f_equal (fun df => nth 10 (hd [] (records df)) VNone)) in H.
  vm_compute in H. discriminate H.
Qed.

(** C8, amended. Whatever the writer and the reader of the flat file are:
    when the file exists, a load returns the file as read and leaves it
    alone, so that two successive loads return the same table; when it does
    not, the first load returns the seed table and writes it out, and the
    second returns what the reader makes of that file. In both cases every
    load after the first returns the same table and leaves the file as it
    is. *)
Theorem load_is_stable_once_the_file_exists (CsvFile : Type)
    (to_csv : DataFrame -> CsvFile) (read_csv : CsvFile -> DataFrame)
    (db_path : option CsvFile) :
  let first := get_food_database to_csv read_csv db_path in
  let second := get_food_database to_csv read_csv (snd first) in
  let third := get_food_database to_csv read_csv (snd second) in
  (forall file,
     db_path = Some file ->
     fst first = read_csv file /\ snd first = db_path /\ second = first) /\
  (db_path = None ->
   fst first = create_food_database /\
   snd first = Some (to_csv create_food_database) /\
   fst second = read_csv (to_csv create_food_database) /\
   snd second = snd first) /\
  third = second.
Proof.
  cbv zeta. destruct db_path as [file|]; simpl.
  - split; [|split; [discriminate | reflexivity]].
    intros f H. injection H as <-. repeat split; reflexivity.
  - split; [discriminate|]. split; [|reflexivity].
    intros _. repeat split; reflexivity.
Qed.

(** With the writer and the reader modelled above, the seed table comes
    back from the file with its columns, its rows in order, and the cells of
    the first eight columns (identifier to dietary flag) as they were. *)
Example seed_round_trip :
  let reread := fst (load (snd (load None))) in
  columns reread = columns create_food_database /\
  df_len reread = 20 /\
  map (firstn 8) (records reread) = map (firstn 8) (records create_food_database).
Proof. cbv zeta. repeat split; vm_compute; reflexivity. Qed.

End CatalogClaims.

(** * Further properties of the code *)

(** ** The memory store across calls and sessions *)

Section MemoryCoverage.
Import PyStr.
Import MemorySystem.
Import MemorySpec.

Lemma add_feedback_step (ms : MemorySystem.t) (d n f : string) (r : PyVal)
    (ts : option string) (t : string) :
  exists ms',
    add_feedback ms d n f r ts t = Ok ms' /\
    order_history (memory ms') = order_history (memory ms) /\
    preferences (memory ms') = preferences (memory ms) /\
    recent_feedbacks (memory ms') =
      (if 10 <? List.length (recent_feedbacks (memory ms) ++ [entry_of d n f r ts t])
       then tl (recent_feedbacks (memory ms) ++ [entry_of d n f r ts t])
       else recent_feedbacks (memory ms) ++ [entry_of d n f r ts t]).
Proof.
  rewrite length_app. cbn [List.length].
  destruct (Nat.lt_ge_cases (List.length (recent_feedbacks (memory ms))) 10) as [Hlt | Hge].
  - destruct (Nat.ltb_spec 10 (List.length (recent_feedbacks (memory ms)) + 1)); [lia|].
    eexists. split; [apply add_feedback_below; exact Hlt|].
    repeat split; reflexivity.
  - destruct (recent_feedbacks (memory ms)) as [|oldest rest] eqn:Hrec; [simpl in Hge; lia|].
    cbn [List.length] in *.
    destruct (Nat.ltb_spec 10 (S (List.length rest) + 1)); [|lia].
    eexists. split; [eapply add_feedback_overflow; [eassumption | cbn [List.length]; lia]|].
    repeat split; reflexivity.
Qed.

(** The order history after a sequence of calls. *)
Lemma calls_append_orders (cs : list Call) (ms : MemorySystem.t) :
  exists ms',
    calls ms cs = Ok ms' /\
    order_history (memory ms') = order_history (memory ms) ++ placed cs.
Proof.
  revert ms; induction cs as [|c cs IH]; intros ms.
  - exists ms. split; [reflexivity|]. now rewrite app_nil_r.
  - destruct c as [d n r p ts t | d n f r ts t | p]; cbn [calls call placed bind].
    + destruct (IH (add_order ms d n r p ts t)) as (ms' & Hrun & Hord).
      exists ms'. split; [exact Hrun|]. rewrite Hord. cbn. now rewrite <- app_assoc.
    + destruct (add_feedback_step ms d n f r ts t) as (ms1 & -> & Hord1 & _).
      cbn [bind]. destruct (IH ms1) as (ms' & Hrun & Hord).
      exists ms'. split; [exact Hrun|]. now rewrite Hord, Hord1.
    + destruct (IH (update_preferences ms p)) as (ms' & Hrun & Hord).
      exists ms'. split; [exact Hrun|]. rewrite Hord. reflexivity.
Qed.

(** X1. Orders are only ever appended: after any sequence of calls on any
    record, the order history is the history before followed by the orders
    the calls placed, in the order they were placed; no call removes,
    reorders or rewrites an order. *)
Theorem orders_are_appended (cs : list Call) (ms : MemorySystem.t) :
  exists ms',
    calls ms cs = Ok ms' /\
    order_history (memory ms') = order_history (memory ms) ++ placed cs.
Proof. exact (calls_append_orders cs ms). Qed.

Lemma last_n_all {A : Type} (l : list A) : last_n (List.length l) l = l.
Proof. apply last_n_short. lia. Qed.

(** The window after a sequence of calls on any record. *)
Lemma calls_window (cs : list Call) (ms : MemorySystem.t) :
  exists ms',
    calls ms cs = Ok ms' /\
    let n := List.length (recent_feedbacks (memory ms)) in
    let k := List.length (inserted cs) in
    List.length (recent_feedbacks (memory ms')) = window_size n k /\
    recent_feedbacks (memory ms') =
      last_n (window_size n k) (recent_feedbacks (memory ms) ++ inserted cs).
Proof.
  cbv zeta. unfold window_size.
  induction cs as [|c cs IH] using rev_ind.
  - exists ms. split; [reflexivity|]. cbn [inserted List.length].
    rewrite app_nil_r, Nat.add_0_r.
    replace (Nat.max _ _) with (List.length (recent_feedbacks (memory ms))) by lia.
    split; [reflexivity | now rewrite last_n_all].
  - destruct IH as (ms1 & Hrun & Hlen & Hwin).
    rewrite calls_app, Hrun. cbn [bind]. rewrite calls_one, inserted_app, length_app.
    set (w0 := recent_feedbacks (memory ms)) in *.
    set (ins := inserted cs) in *.
    destruct c as [d n r p ts t | d n f r ts t | p]; cbn [call inserted List.length].
    + eexists. split; [reflexivity|]. rewrite app_nil_r, Nat.add_0_r. cbn. auto.
    + destruct (add_feedback_step ms1 d n f r ts t) as (ms' & -> & _ & _ & Hstep).
      exists ms'. split; [reflexivity|].
      set (e := entry_of d n f r ts t) in *.
      set (L := Nat.max (List.length w0) (Nat.min (List.length w0 + List.length ins) 10)) in *.
      assert (HL : L <= List.length (w0 ++ ins)) by (rewrite length_app; lia).
      rewrite Hstep, Hwin. rewrite app_assoc.
      rewrite length_app, last_n_length. cbn [List.length].
      rewrite Nat.min_l by exact HL.
      destruct (Nat.ltb_spec 10 (L + 1)) as [Hfull | Hroom].
      * replace (Nat.max (List.length w0)
                   (Nat.min (List.length w0 + (List.length ins + 1)) 10)) with L by lia.
        split.
        -- destruct (last_n L (w0 ++ ins)) as [|x rest] eqn:Hl.
           { apply (f_equal (@List.length _)) in Hl. rewrite last_n_length in Hl.
             cbn in Hl. lia. }
           apply (f_equal (@List.length _)) in Hl. rewrite last_n_length in Hl.
           cbn [List.length app tl] in *. rewrite length_app. cbn. lia.
        -- rewrite (last_n_snoc L (w0 ++ ins) e).
           rewrite length_app, last_n_length. cbn [List.length].
           rewrite Nat.min_l by exact HL.
           destruct (Nat.ltb_spec L (L + 1)); [reflexivity | lia].
      * assert (Hall : L = List.length (w0 ++ ins)) by (rewrite length_app in *; lia).
        replace (Nat.max (List.length w0)
                   (Nat.min (List.length w0 + (List.length ins + 1)) 10))
          with (List.length ((w0 ++ ins) ++ [e]))
          by (rewrite !length_app in *; cbn [List.length]; lia).
        rewrite Hall, !last_n_all. split; reflexivity.
    + eexists. split; [reflexivity|]. rewrite app_nil_r, Nat.add_0_r. cbn. auto.
Qed.

(** X2. The window from any stored record, not only a new one: after calls
    that insert [k] feedback entries into a record whose window holds [n],
    the window holds [max n (min (n + k) 10)] entries, the most recent ones
    of the old window followed by the inserted entries. A stored window
    longer than ten is therefore never cut back to ten: each insertion
    drops exactly one entry. *)
Theorem window_from_any_record (cs : list Call) (ms : MemorySystem.t) :
  exists ms',
    calls ms cs = Ok ms' /\
    let n := List.length (recent_feedbacks (memory ms)) in
    let k := List.length (inserted cs) in
    List.length (recent_feedbacks (memory ms')) = window_size n k /\
    recent_feedbacks (memory ms') =
      last_n (window_size n k) (recent_feedbacks (memory ms) ++ inserted cs).
Proof. exact (calls_window cs ms). Qed.

End MemoryCoverage.

Section MemorySummary.
Import PyStr.
Import MemorySystem.
Import MemorySpec.

Lemma join_snoc (sep x : string) (l : list string) :
  l <> [] -> join sep (l ++ [x]) = (join sep l ++ sep ++ x)%string.
Proof.
  unfold join. induction l as [|a l IH]; [congruence|]. intros _.
  destruct l as [|b l]; [reflexivity|].
  change ((a :: b :: l) ++ [x]) with (a :: ((b :: l) ++ [x])).
  change (String.concat sep (a :: (b :: l) ++ [x]))
    with (a ++ sep ++ String.concat sep ((b :: l) ++ [x]))%string.
  rewrite IH by discriminate.
  change (String.concat sep (a :: b :: l))
    with (a ++ sep ++ String.concat sep (b :: l))%string.
  now rewrite !append_assoc.
Qed.

(** The summary of [olds]: nothing when there are none, and otherwise the
    heading followed by one line per entry, oldest first. *)
Lemma summary_of_layout (olds : list Feedback) :
  summary_of olds =
  match olds with
  | [] => EmptyString
  | _ => join nl ("Older Feedback Summary:"%string :: map summary_addition olds)
  end.
Proof.
  induction olds as [|o olds IH] using rev_ind; [reflexivity|].
  rewrite summary_of_snoc, IH, map_app. cbn [map].
  destruct olds as [|o1 olds].
  - reflexivity.
  - cbn [app]. rewrite app_comm_cons, join_snoc by discriminate.
    unfold summary_prefix.
    change (truthy (join nl ("Older Feedback Summary:"%string
                             :: map summary_addition (o1 :: olds)))) with true.
    cbn match. now rewrite append_assoc.
Qed.

(** X3. No feedback is lost on a new user: after any sequence of calls the
    entries inserted are, in order, the entries that were folded away
    followed by the window. The summary is empty while nothing was folded
    away; afterwards it is the heading, once, followed by one line per
    folded entry, oldest first, joined by line breaks, each line being a
    bullet, the dish name, the comment, the rating out of five and the day
    of the timestamp. *)
Theorem feedback_is_kept_or_summarised (uid now : string) (cs : list Call) :
  exists ms olds,
    calls (fresh uid now) cs = Ok ms /\
    inserted cs = olds ++ recent_feedbacks (memory ms) /\
    List.length olds = List.length (inserted cs) - 10 /\
    consolidated_feedback (memory ms) =
      match olds with
      | [] => EmptyString
      | _ =>
          join nl
            ("Older Feedback Summary:"%string
             :: map (fun fb =>
                       "• " ++ fb_dish_name fb ++ ": " ++ fb_feedback fb
                       ++ " (Rating: " ++ PyValue.str (fb_rating fb) ++ "/5) - "
                       ++ take 10 (fb_timestamp fb))%string olds)
      end.
Proof.
  destruct (calls_on_fresh uid now cs) as (ms & Hrun & Hwin & Hsum).
  exists ms, (firstn (List.length (inserted cs) - 10) (inserted cs)).
  split; [exact Hrun|]. split; [rewrite Hwin; apply last_n_suffix|].
  split; [rewrite length_firstn; lia|].
  rewrite Hsum, summary_of_layout.
  destruct (firstn _ _) as [|o olds]; [reflexivity|].
  rewrite (map_ext summary_addition summary_line summary_addition_line).
  reflexivity.
Qed.

(** X3 on twelve numbered entries: the two oldest were folded away and
    the summary is the heading and their two lines, to the letter. *)
Lemma twelve_entries_summarised :
  exists ms,
    calls (fresh "user_demo_001" "2025-03-01T19:30:00") twelve = Ok ms /\
    map fb_feedback (recent_feedbacks (memory ms)) =
      ["3"; "4"; "5"; "6"; "7"; "8"; "9"; "10"; "11"; "12"]%string /\
    consolidated_feedback (memory ms) =
      ("Older Feedback Summary:" ++ nl
       ++ "• Chicken Biryani: 1 (Rating: 5/5) - 2025-03-01" ++ nl
       ++ "• Chicken Biryani: 2 (Rating: 5/5) - 2025-03-01")%string.
Proof.
  destruct (feedback_is_kept_or_summarised "user_demo_001" "2025-03-01T19:30:00" twelve)
    as (ms & olds & Hrun & Hsplit & Hlen & Hsum).
  exists ms. split; [exact Hrun|].
  vm_compute in Hrun. injection Hrun as <-.
  cbn [memory recent_feedbacks] in Hsplit.
  destruct olds as [|o1 [|o2 [|o3 olds]]]; try discriminate Hlen.
  vm_compute in Hsplit. injection Hsplit as <- <-.
  split; [reflexivity|]. rewrite Hsum. reflexivity.
Defined.

(** X4. Every mutating call ends with the whole record in the user's file,
    so an object created afterwards over that file is the object the call
    left: nothing is lost between sessions. *)
Theorem restart_resumes (ms : MemorySystem.t) (c : Call) :
  exists ms',
    call ms c = Ok ms' /\
    user_file ms' = Some (memory ms') /\
    forall uid now : string, init uid (user_file ms') now = ms'.
Proof.
  destruct (call_returns ms c) as [ms' Hc].
  exists ms'. split; [exact Hc|].
  pose proof (call_persists _ _ Hc) as Hfile.
  split; [exact Hfile|]. intros uid now. unfold init. rewrite Hfile.
  destruct ms' as [m file]. cbn in *. now rewrite Hfile.
Qed.

Lemma dict_set_keys (k : string) (v : PyVal) (d : list (string * PyVal)) :
  keys (dict_set k v d) = if existsb (String.eqb k) (keys d) then keys d else keys d ++ [k].
Proof.
  unfold keys. induction d as [|[k' v'] d IH]; [reflexivity|]. cbn [dict_set map fst existsb].
  rewrite (String.eqb_sym k k').
  destruct (String.eqb_spec k' k) as [-> | Hne]; [reflexivity|].
  cbn [map fst orb]. rewrite IH. destruct (existsb (String.eqb k) (map fst d)); reflexivity.
Qed.

Lemma existsb_eqb_in (k : string) (l : list string) :
  existsb (String.eqb k) l = true <-> In k l.
Proof.
  rewrite existsb_exists. split.
  - intros (x & Hin & Heq). apply String.eqb_eq in Heq. now subst.
  - intros Hin. exists k. split; [exact Hin | apply String.eqb_refl].
Qed.

Lemma dict_set_get (k k0 : string) (v : PyVal) (d : list (string * PyVal)) :
  dict_get k0 (dict_set k v d) = if String.eqb k k0 then Some v else dict_get k0 d.
Proof.
  induction d as [|[k' v'] d IH]; cbn [dict_set dict_get].
  - destruct (String.eqb k k0); reflexivity.
  - destruct (String.eqb_spec k' k) as [-> | Hne]; cbn [dict_get].
    + destruct (String.eqb k k0); reflexivity.
    + rewrite IH. destruct (String.eqb_spec k' k0) as [-> | Hne0]; [|reflexivity].
      destruct (String.eqb_spec k k0) as [-> | _]; [congruence | reflexivity].
Qed.

(** X5. [update_preferences] keeps the place of every key the record
    already has and puts new keys after them, so the preference lines of the
    context keep their order; and it never duplicates a key. *)
Theorem update_preferences_keeps_key_order (ms : MemorySystem.t)
    (prefs : list (string * PyVal)) :
  let old := preferences (memory ms) in
  let new := preferences (memory (update_preferences ms prefs)) in
  (exists added, keys new = keys old ++ added /\ forall k, In k added -> In k (keys prefs)) /\
  (NoDup (keys old) -> NoDup (keys new)).
Proof.
  cbv zeta. cbn [update_preferences _save_memory memory set_preferences preferences].
  unfold dict_update. generalize (preferences (memory ms)) as d.
  induction prefs as [|[k v] prefs IH]; intros d; cbn [fold_left fst snd].
  - split; [exists []; split; [now rewrite app_nil_r | intros k []] | auto].
  - destruct (IH (dict_set k v d)) as [(added & Hkeys & Hadded) Hnodup].
    rewrite dict_set_keys in Hkeys, Hnodup.
    destruct (existsb (String.eqb k) (keys d)) eqn:Hex.
    + split; [|exact Hnodup]. exists added. split; [exact Hkeys|].
      intros k0 Hin. right. now apply Hadded.
    + split.
      * exists (k :: added). split; [rewrite Hkeys, <- app_assoc; reflexivity|].
        intros k0 [<- | Hin]; [left; reflexivity | right; now apply Hadded].
      * intros Hd. apply Hnodup. apply NoDup_app; [exact Hd | repeat constructor; intros [] |].
        intros x Hx [<- | []]. apply existsb_eqb_in in Hx. congruence.
Qed.

(** The value under a key after [d.update(other)]. *)
Lemma dict_update_get (d other : list (string * PyVal)) (k : string) :
  dict_get k (dict_update d other) =
  match dict_get k (rev other) with
  | Some v => Some v
  | None => dict_get k d
  end.
Proof.
  unfold dict_update. revert d.
  induction other as [|[k1 v1] other IH] using rev_ind; intros d; [reflexivity|].
  rewrite fold_left_app, rev_app_distr. cbn [fold_left rev app fst snd dict_get].
  rewrite dict_set_get, IH. destruct (String.eqb k1 k); reflexivity.
Qed.

(** X6. After [update_preferences], the value under a key is the one the
    update gives it (the last one, when the update lists the key more than
    once), and the value the record had when the update does not mention
    the key. *)
Theorem update_preferences_lookup (ms : MemorySystem.t) (prefs : list (string * PyVal))
    (k : string) :
  dict_get k (preferences (memory (update_preferences ms prefs))) =
  match dict_get k (rev prefs) with
  | Some v => Some v
  | None => dict_get k (preferences (memory ms))
  end.
Proof.
  cbn [update_preferences _save_memory memory set_preferences preferences].
  apply dict_update_get.
Qed.

End MemorySummary.

Section MemoryPlaceholder.
Import PyStr.
Import MemorySystem.
Import MemorySpec.

Lemma sections_empty (m : Memory) :
  sections m = [] ->
  preferences m = [] /\ order_history m = [] /\ recent_feedbacks m = [] /\
  consolidated_feedback m = EmptyString.
Proof.
  unfold sections, preferences_section, orders_section, feedback_section,
    consolidated_section.
  destruct (preferences m); [|discriminate].
  destruct (order_history m); [|discriminate].
  destruct (recent_feedbacks m); [|discriminate].
  destruct (consolidated_feedback m); [|discriminate].
  auto.
Qed.

(** The first part of a context that is not empty starts with the [U] of the
    preferences heading or with a line break. *)
Lemma sections_head (m : Memory) (x : string) (rest : list string) :
  sections m = x :: rest ->
  exists c tail, x = String c tail /\ c <> "N"%char.
Proof.
  unfold sections, preferences_section, orders_section, feedback_section,
    consolidated_section.
  destruct (preferences m).
  - destruct (order_history m).
    + destruct (recent_feedbacks m).
      * destruct (consolidated_feedback m); [discriminate|].
        intros H; injection H as <- _. eexists _, _. split; [reflexivity | discriminate].
      * intros H; injection H as <- _. eexists _, _. split; [reflexivity | discriminate].
    + intros H; injection H as <- _. eexists _, _. split; [reflexivity | discriminate].
  - intros H; injection H as <- _. eexists _, _. split; [reflexivity | discriminate].
Qed.

(** X7. [get_memory_context] returns the placeholder only for a record with
    no preferences, no orders, no feedback in the window and no summary;
    as soon as one of them exists the text is a different one. *)
Theorem placeholder_only_when_empty (ms : MemorySystem.t) :
  get_memory_context ms = "No previous history."%string <->
  preferences (memory ms) = [] /\ order_history (memory ms) = [] /\
  recent_feedbacks (memory ms) = [] /\
  consolidated_feedback (memory ms) = EmptyString.
Proof.
  rewrite context_parts_sections. split.
  - destruct (sections (memory ms)) as [|x rest] eqn:Hs; [intros _; now apply sections_empty|].
    destruct (sections_head _ Hs) as (c & tail & -> & Hc).
    intros H. exfalso. apply Hc.
    destruct rest; cbn in H; now injection H.
  - intros (Hp & Ho & Hf & Hc).
    unfold sections, preferences_section, orders_section, feedback_section,
      consolidated_section.
    now rewrite Hp, Ho, Hf, Hc.
Qed.

End MemoryPlaceholder.

(** ** The orchestrator: what a call returns and records *)

Section OrchestratorCoverage.
Import PyStr.
Import FoodDatabase.
Import AgentSystem.
Import OrchestratorSpec.
Import Scenarios.
Local Open Scope string_scope.

(** The generation stage, spelled out by the answer of its session. *)
Lemma generate_outcome (self : AgentSystem.t) (debug : DebugInfo) (out : list string)
    (current_time user_query memory_context context : string) :
  let g := generate self debug out current_time user_query memory_context context in
  let input := recommendation_input current_time user_query memory_context context in
  sent (recommendation_agent (agents g)) = (sent (recommendation_agent self) ++ [input])%list /\
  query_handler (agents g) = query_handler self /\
  printed g = out /\
  exists reply debug',
    result g = Ok (reply, debug') /\
    database_searched debug' = database_searched debug /\
    filtered_dishes_count debug' = filtered_dishes_count debug /\
    handler_response debug' = handler_response debug /\
    pandas_query debug' = pandas_query debug /\
    filtered_data_preview debug' = filtered_data_preview debug /\
    match model (recommendation_agent self) (sent (recommendation_agent self)) input with
    | SendRaises e =>
        reply = "Sorry, an error occurred: " ++ exc_str e /\ final_response debug' = final_response debug
    | SendNone | SendNoText =>
        reply = "Sorry, I couldn't generate recommendations at this moment. Please try again."
        /\ final_response debug' = final_response debug
    | SendText final => reply = final /\ final_response debug' = Some final
    end.
Proof.
  cbv zeta. unfold generate, send_message.
  destruct (model (recommendation_agent self) _ _);
    (split; [reflexivity|]); (split; [reflexivity|]); (split; [reflexivity|]);
    eexists _, _; repeat split; reflexivity.
Qed.

(** X11. When the classification session answered and [process_query]
    returned, the generation session was sent exactly one turn, and the text
    returned is decided by its answer to that turn: the session's text when
    it answers, and an apology when the call raises (with the error's text)
    or gives back nothing readable. *)
Theorem generation_answer_is_returned (w : World) (self : AgentSystem.t)
    (user_query memory_context text reply : string) (debug : DebugInfo) :
  classification w self user_query memory_context = SendText text ->
  result (process_query w self user_query memory_context) = Ok (reply, debug) ->
  exists input,
    sent (recommendation_agent (agents (process_query w self user_query memory_context)))
      = (sent (recommendation_agent self) ++ [input])%list /\
    handler_response debug = Some text /\
    match model (recommendation_agent self) (sent (recommendation_agent self)) input with
    | SendRaises e =>
        reply = "Sorry, an error occurred: " ++ exc_str e /\ final_response debug = None
    | SendNone | SendNoText =>
        reply = "Sorry, I couldn't generate recommendations at this moment. Please try again."
        /\ final_response debug = None
    | SendText final => reply = final /\ final_response debug = Some final
    end.
Proof.
  unfold classification, process_query, send_message. cbn [fst]. intros ->.
  assert (Hgen : forall s d o c,
             recommendation_agent s = recommendation_agent self ->
             handler_response d = Some text -> final_response d = None ->
             let g := generate s d o (now_pretty w) user_query memory_context c in
             result g = Ok (reply, debug) ->
             exists input,
               sent (recommendation_agent (agents g))
                 = (sent (recommendation_agent self) ++ [input])%list /\
               handler_response debug = Some text /\
               match model (recommendation_agent self) (sent (recommendation_agent self)) input with
               | SendRaises e =>
                   reply = "Sorry, an error occurred: " ++ exc_str e /\ final_response debug = None
               | SendNone | SendNoText =>
                   reply = "Sorry, I couldn't generate recommendations at this moment. Please try again."
                   /\ final_response debug = None
               | SendText final => reply = final /\ final_response debug = Some final
               end).
  { intros s d o c Hs Hd Hf g Hres. subst g.
    destruct (generate_outcome s d o (now_pretty w) user_query memory_context c)
      as (Hsent & _ & _ & reply' & debug' & Hr & _ & _ & Hh & _ & _ & Hm).
    rewrite Hr in Hres. injection Hres as -> ->.
    rewrite Hs in Hsent, Hm.
    eexists. split; [exact Hsent|]. split; [congruence|].
    destruct (model (recommendation_agent self) _ _); destruct Hm as [Hm1 Hm2];
      (split; [exact Hm1 | congruence]). }
  destruct (_extract_xml_content text "pandas_query") as [[|a q]|].
  - apply Hgen; reflexivity.
  - destruct (_execute_pandas_query w _ (String a q)) as [df out].
    destruct (_format_filtered_data w df) as [ctx | e]; [|discriminate].
    apply Hgen; reflexivity.
  - apply Hgen; reflexivity.
Qed.

(** X11 on the dessert scenario. *)
Lemma generation_answer_example :
  classification world (orchestrator dessert_reply "1. **Gulab Jamun**")
    "Show me all desserts" "No previous history." = SendText dessert_reply /\
  exists debug,
    result (process_query world (orchestrator dessert_reply "1. **Gulab Jamun**")
              "Show me all desserts" "No previous history.")
    = Ok ("1. **Gulab Jamun**", debug) /\
    final_response debug = Some "1. **Gulab Jamun**".
Proof.
  split; [reflexivity|].
  eexists. split; [vm_compute; reflexivity|].
  destruct (@generation_answer_is_returned world
              (orchestrator dessert_reply "1. **Gulab Jamun**")
              "Show me all desserts" "No previous history." dessert_reply _ _
              eq_refl eq_refl) as (input & _ & _ & Hm).
  cbn in Hm. apply Hm.
Defined.



(** On the answer that selects two columns, the exception that leaves the
    call is the one formatting the filtered table raised. *)
Lemma column_selection_is_a_formatting_failure :
  result (process_query world (orchestrator projection_reply "1. **Butter Chicken**")
            "Show me dish names and prices" "No previous history.")
  = Raise (KeyError "restaurant") /\
  exists text expression,
    classification world (orchestrator projection_reply "1. **Butter Chicken**")
      "Show me dish names and prices" "No previous history." = SendText text /\
    _extract_xml_content text "pandas_query" = Some expression /\
    expression <> EmptyString.
Proof.
  assert (H : result (process_query world (orchestrator projection_reply "1. **Butter Chicken**")
                        "Show me dish names and prices" "No previous history.")
              = Raise (KeyError "restaurant")) by (vm_compute; reflexivity).
  split; [exact H|].
  destruct (process_query_raises_from_formatting_only _ _ _ _ H)
    as (text & expression & Hc & Hx & Hne & _).
  exists text, expression. auto.
Defined.



End OrchestratorCoverage.

(** ** The orchestrator: formatting and cleaning *)

Section FormattingCoverage.
Import PyStr.
Import FoodDatabase.
Import AgentSystem.
Import OrchestratorSpec.
Import Scenarios.
Local Open Scope string_scope.

Lemma strings_of_strs (ss : list string) : strings_of (map VStr ss) = Ok ss.
Proof. induction ss as [|s ss IH]; cbn; [reflexivity | now rewrite IH]. Qed.

Lemma join_value_joinable (v : PyVal) : joinable v -> exists text, join_value v = Ok text.
Proof.
  intros [[ss ->] | [s ->]]; cbn [join_value].
  - rewrite strings_of_strs. cbn. eauto.
  - eauto.
Qed.

Lemma format_row_formattable (w : World) (row : Series) :
  formattable w row -> exists piece, format_row w row = Ok piece.
Proof.
  intros [Hlabels (tags & Htags & Hjoin)]. unfold format_labels in Hlabels.
  repeat match goal with
         | H : Forall _ (_ :: _) |- _ => inversion H as [|? ? [? ?] ?]; subst; clear H
         end.
  unfold format_row.
  repeat match goal with
         | H : getitem row _ = Ok _ |- _ => rewrite H; clear H; cbn [bind]
         end.
  assert (Hj : exists text,
             bind (match tags with VStr s => eval_cell w s | _ => Ok tags end) join_value
             = Ok text).
  { destruct tags; try (cbn [bind]; now apply join_value_joinable).
    destruct Hjoin as (v & -> & Hv). cbn [bind]. now apply join_value_joinable. }
  destruct Hj as [text Hj].
  destruct (match tags with VStr s => eval_cell w s | _ => Ok tags end) as [v|e];
    cbn [bind] in Hj |- *; [|discriminate].
  rewrite Hj. cbn [bind]. eauto.
Qed.

Lemma format_rows_pieces (w : World) (rows : list Series) (pieces : list string)
    (formatted : string) :
  Forall2 (fun row piece => format_row w row = Ok piece) rows pieces ->
  format_rows w rows formatted = Ok (formatted ++ String.concat EmptyString pieces).
Proof.
  intros H. revert formatted. induction H as [|row piece rows pieces Hrow _ IH]; intros formatted.
  - cbn. now rewrite append_empty_r.
  - cbn [format_rows]. rewrite Hrow. cbn [bind]. rewrite IH.
    destruct pieces as [|p ps]; cbn [String.concat].
    + now rewrite append_empty_r.
    + now rewrite append_assoc.
Qed.

Lemma block_of_format_row (w : World) (row : Series) (piece : string) :
  block_of w row piece -> format_row w row = Ok piece.
Proof.
  intros (n & r & cu & ca & p & ra & d & sp & de & tags & Hn & Hr & Hcu & Hca & Hp & Hra
          & Hd & Hsp & Hde & (cell & ss & Hcell & Hlist & ->) & ->).
  unfold format_row.
  rewrite Hn, Hr, Hcu, Hca, Hp, Hra, Hd, Hsp, Hde, Hcell. cbn [bind].
  destruct Hlist as [-> | (s & -> & Heval)].
  - cbn [bind join_value]. rewrite strings_of_strs. reflexivity.
  - rewrite Heval. cbn [bind join_value]. rewrite strings_of_strs. reflexivity.
Qed.

Lemma complete_has_block (w : World) (row : Series) :
  complete w row -> exists piece, block_of w row piece.
Proof.
  intros [Hlabels [text Htext]]. unfold format_labels in Hlabels.
  repeat match goal with
         | H : Forall _ (_ :: _) |- _ => inversion H as [|? ? [? ?] ?]; subst; clear H
         end.
  eexists. unfold block_of. do 10 eexists.
  repeat (split; [eassumption|]). reflexivity.
Qed.

(** X14. [_format_filtered_data] returns the sentence for an empty table
    when the table has no rows or no columns, without looking at a row. On
    any other table it returns the heading with the number of rows followed
    by the blocks of the rows, in the order of the rows; the block of a row
    gives, on six lines followed by an empty one, the dish and the
    restaurant, the cuisine and the category, the price and the rating, the
    dietary flag and the spice level, the description, and the tags joined
    by commas. Every row that has the nine labels and a list of strings for
    its tags has such a block. *)
Theorem complete_rows_are_formatted (w : World) (df : DataFrame) :
  (df_empty df = true ->
   _format_filtered_data w df = Ok "No matching dishes found in database.") /\
  (df_empty df = false ->
   forall pieces,
     Forall2 (block_of w) (iterrows df) pieces ->
     _format_filtered_data w df
     = Ok ("Found " ++ str_nat (df_len df) ++ " matching dishes:" ++ nl ++ nl
           ++ String.concat EmptyString pieces)) /\
  (Forall (complete w) (iterrows df) ->
   exists pieces, Forall2 (block_of w) (iterrows df) pieces).
Proof.
  unfold _format_filtered_data. split; [intros ->; reflexivity|]. split.
  - intros -> pieces Hp.
    assert (Hrows : Forall2 (fun row piece => format_row w row = Ok piece)
                      (iterrows df) pieces).
    { induction Hp; constructor; try assumption. now apply block_of_format_row. }
    rewrite (@format_rows_pieces w _ _ _ Hrows). rewrite !append_assoc. reflexivity.
  - intros Hrows.
    induction Hrows as [|row rows Hrow _ [pieces IH]]; [exists []; constructor|].
    destruct (complete_has_block Hrow) as [piece Hp].
    exists (piece :: pieces). now constructor.
Qed.

(** X14 on the two desserts of the seed table: the text, to the letter. *)
Lemma desserts_are_formatted :
  _format_filtered_data world (where_eq "category" "Dessert" create_food_database)
  = Ok (join nl
          [ "Found 2 matching dishes:";
            "";
            "**Chocolate Brownie** - Dessert Dreams";
            "  Cuisine: Continental | Category: Dessert";
            "  Price: ‚Çπ150 | Rating: 4.5/5";
            "  Dietary: Vegetarian | Spice: None";
            "  Description: Rich chocolate brownie with ice cream";
            "  Tags: Sweet, Chocolatey, Indulgent";
            "";
            "**Gulab Jamun** - Sweet Tooth";
            "  Cuisine: Indian | Category: Dessert";
            "  Price: ‚Çπ80 | Rating: 4.4/5";
            "  Dietary: Vegetarian | Spice: None";
            "  Description: Deep-fried milk balls in sugar syrup";
            "  Tags: Sweet, Traditional, Popular";
            "";
            "" ]).
Proof.
  destruct (complete_rows_are_formatted world
              (where_eq "category" "Dessert" create_food_database)) as (_ & Htext & Hblocks).
  assert (Hrows : Forall (complete world)
                    (iterrows (where_eq "category" "Dessert" create_food_database))).
  { repeat constructor; try (eexists; reflexivity).
    - exists "Sweet, Chocolatey, Indulgent", (VList (map VStr ["Sweet"; "Chocolatey"; "Indulgent"])),
        ["Sweet"; "Chocolatey"; "Indulgent"]. repeat split; try reflexivity. now left.
    - exists "Sweet, Traditional, Popular", (VList (map VStr ["Sweet"; "Traditional"; "Popular"])),
        ["Sweet"; "Traditional"; "Popular"]. repeat split; try reflexivity. now left. }
  destruct (Hblocks Hrows) as [pieces Hp].
  rewrite (Htext eq_refl pieces Hp).
  inversion Hp as [|row1 piece1 rows1 pieces1 H1 Hp1]; subst.
  inversion Hp1 as [|row2 piece2 rows2 pieces2 H2 Hp2]; subst.
  inversion Hp2; subst.
  apply block_of_format_row in H1. apply block_of_format_row in H2.
  vm_compute in H1. vm_compute in H2.
  injection H1 as <-. injection H2 as <-.
  reflexivity.
Defined.

Lemma lstrip_no_lead (s : string) : no_lead (lstrip s).
Proof.
  induction s as [|a s IH]; cbn; [exact I|].
  destruct (is_space a) eqn:Ha; [exact IH | exact Ha].
Qed.

Lemma no_lead_lstrip (s : string) : no_lead s -> lstrip s = s.
Proof. destruct s as [|a s]; cbn; [reflexivity | now intros ->]. Qed.

Lemma rstrip_no_lead (s : string) : no_lead s -> no_lead (rstrip s).
Proof.
  destruct s as [|a s]; cbn; [auto|]. intros Ha.
  destruct (rstrip s); [rewrite Ha|]; exact Ha.
Qed.

Lemma rstrip_rstrip (s : string) : rstrip (rstrip s) = rstrip s.
Proof.
  induction s as [|a s IH]; [reflexivity|]. cbn [rstrip].
  destruct (rstrip s) as [|b r] eqn:Hr.
  - destruct (is_space a) eqn:Ha; [reflexivity|]. cbn. now rewrite Ha.
  - cbn [rstrip]. cbn [rstrip] in IH. rewrite IH. reflexivity.
Qed.

Lemma strip_strip (s : string) : strip (strip s) = strip s.
Proof.
  unfold strip.
  rewrite (@no_lead_lstrip _ (@rstrip_no_lead _ (lstrip_no_lead s))).
  apply rstrip_rstrip.
Qed.

(** X15. The expression [_extract_xml_content] returns has no white space
    around it, so that [_execute_pandas_query] evaluates exactly the
    expression extracted (the one [debug_info] shows) unless it starts with
    a comment sign. *)
Theorem extracted_expression_is_evaluated (text tag expression : string) :
  _extract_xml_content text tag = Some expression ->
  strip expression = expression /\
  (startswith expression "#" = false -> clean_query expression = expression).
Proof.
  rewrite extract_unfold.
  destruct (negb _ && negb _); [|discriminate].
  intros H; injection H as <-.
  split; [apply strip_strip|].
  unfold clean_query. rewrite strip_strip. now intros ->.
Qed.

(** X15 on the dessert answer. *)
Lemma extracted_expression_example :
  _extract_xml_content dessert_reply "pandas_query"
    = Some "food_df[food_df['category'] == 'Dessert']" /\
  clean_query "food_df[food_df['category'] == 'Dessert']"
    = "food_df[food_df['category'] == 'Dessert']".
Proof.
  split; [reflexivity|].
  apply (@extracted_expression_is_evaluated dessert_reply "pandas_query" _ eq_refl).
  reflexivity.
Defined.

End FormattingCoverage.

Section CleaningCoverage.
Import PyStr.
Import PyValue.
Import AgentSystem.
Import OrchestratorSpec.
Import Scenarios.
Local Open Scope string_scope.

Lemma split_not_nil (c : ascii) (s : string) : split c s <> [].
Proof.
  induction s as [|a s IH]; cbn; [discriminate|].
  destruct (Ascii.eqb a c); [discriminate|]. destruct (split c s); discriminate.
Qed.







End CleaningCoverage.

(** ** The sample user *)

Section SampleUser.
Import PyStr.
Import MemorySystem.
Import MemorySpec.

(** X17. [create_sample_user] works on the stored record of the demo user
    when there is one: whatever the file holds, the call returns, leaves the
    stored orders in place and adds its five after them, lets the window grow
    by five up to ten (dropping one old entry per insertion beyond that),
    sets its four preferences, and writes the record back, so that a second
    run adds five more orders. *)
Theorem sample_user_accumulates (file : option Memory) (clock clock' : nat -> string) :
  let before := _load_memory "user_demo_001" file (clock 0) in
  exists ms ms2,
    create_sample_user file clock = Ok ms /\
    order_history (memory ms) = order_history before ++ placed (sample_user_calls clock) /\
    List.length (order_history (memory ms)) = List.length (order_history before) + 5 /\
    List.length (recent_feedbacks (memory ms))
      = window_size (List.length (recent_feedbacks before)) 5 /\
    dict_get "dietary" (preferences (memory ms)) = Some (VStr "Non-Vegetarian") /\
    user_file ms = Some (memory ms) /\
    create_sample_user (user_file ms) clock' = Ok ms2 /\
    List.length (order_history (memory ms2)) = List.length (order_history before) + 10.
Proof.
  cbv zeta. unfold create_sample_user.
  set (ms0 := init "user_demo_001" file (clock 0)).
  change (_load_memory "user_demo_001" file (clock 0)) with (memory ms0).
  destruct (calls_append_orders (sample_user_calls clock) ms0) as (ms & Hrun & Hord).
  destruct (calls_window (sample_user_calls clock) ms0) as (ms_w & Hrun_w & Hlen & _).
  rewrite Hrun in Hrun_w. injection Hrun_w as <-.
  assert (Hfile : user_file ms = Some (memory ms)).
  { change (sample_user_calls clock)
      with (removelast (sample_user_calls clock)
            ++ [UpdatePreferences
                  [ ("dietary", VStr "Non-Vegetarian");
                    ("spice_preference", VStr "Medium to High");
                    ("cuisine_favorites",
                     VList [VStr "Biryani"; VStr "South Indian"; VStr "Chinese"]);
                    ("budget_range", VStr "₹150-400 per dish") ]]) in Hrun.
    rewrite calls_app in Hrun.
    destruct (calls ms0 (removelast (sample_user_calls clock))) as [ms1|e]; [|discriminate].
    cbn [bind] in Hrun. rewrite calls_one in Hrun. now apply call_persists in Hrun. }
  assert (Hpref : dict_get "dietary" (preferences (memory ms)) = Some (VStr "Non-Vegetarian")).
  { change (sample_user_calls clock)
      with (removelast (sample_user_calls clock)
            ++ [UpdatePreferences
                  [ ("dietary", VStr "Non-Vegetarian");
                    ("spice_preference", VStr "Medium to High");
                    ("cuisine_favorites",
                     VList [VStr "Biryani"; VStr "South Indian"; VStr "Chinese"]);
                    ("budget_range", VStr "₹150-400 per dish") ]]) in Hrun.
    rewrite calls_app in Hrun.
    destruct (calls ms0 (removelast (sample_user_calls clock))) as [ms1|e]; [|discriminate].
    cbn [bind] in Hrun. rewrite calls_one in Hrun. cbn [call] in Hrun.
    injection Hrun as <-.
    cbn [update_preferences _save_memory memory set_preferences preferences].
    now rewrite dict_update_get. }
  set (ms0' := init "user_demo_001" (user_file ms) (clock' 0)).
  destruct (calls_append_orders (sample_user_calls clock') ms0') as (ms2 & Hrun2 & Hord2).
  exists ms, ms2.
  split; [exact Hrun|]. split; [exact Hord|].
  split; [rewrite Hord, length_app; reflexivity|].
  split; [exact Hlen|]. split; [exact Hpref|]. split; [exact Hfile|].
  split; [exact Hrun2|].
  rewrite Hord2, length_app. subst ms0'. rewrite Hfile. cbn [init _load_memory memory].
  rewrite Hord, length_app. cbn [placed sample_user_calls List.length]. lia.
Qed.

End SampleUser.

(** ** The orchestrator: a table that lacks a column *)

Section MissingColumn.
Import PyStr.
Import FoodDatabase.
Import AgentSystem.
Import OrchestratorSpec.
Import Scenarios.
Local Open Scope string_scope.

Lemma getitem_raises (row : Series) (label : string) (e : Exc) :
  getitem row label = Raise e -> e = KeyError label.
Proof.
  induction row as [|[k v] row IH]; cbn.
  - intros H. now injection H.
  - destruct (String.eqb k label); [discriminate | exact IH].
Qed.

Lemma getitem_absent (row : Series) (label : string) :
  ~ In label (map fst row) -> getitem row label = Raise (KeyError label).
Proof.
  induction row as [|[k v] row IH]; cbn; [reflexivity|]. intros H.
  destruct (String.eqb_spec k label) as [-> | _]; [tauto|]. apply IH. tauto.
Qed.

Lemma combine_keys {A B : Type} (ks : list A) (vs : list B) (k : A) :
  In k (map fst (combine ks vs)) -> In k ks.
Proof.
  revert vs; induction ks as [|k0 ks IH]; intros [|v vs]; cbn; try tauto.
  intros [-> | H]; [now left | right; eauto].
Qed.

(** A row that lacks one of the labels makes [format_row] raise the
    [KeyError] of the first label it does not find. *)
Lemma format_row_missing (w : World) (row : Series) (label : string) :
  In label (format_labels ++ ["tags"])%list ->
  getitem row label = Raise (KeyError label) ->
  exists missing,
    In missing (format_labels ++ ["tags"])%list /\
    format_row w row = Raise (KeyError missing).
Proof.
  intros Hin Hmiss. unfold format_row.
  repeat match goal with
         | |- context [bind (getitem row ?l) _] =>
             let H := fresh "H" in
             destruct (getitem row l) as [?v | ?e] eqn:H; cbn [bind];
             [ | apply getitem_raises in H; subst;
                 exists l; split; [cbn; tauto | reflexivity] ]
         end.
  exfalso. cbn in Hin.
  repeat (destruct Hin as [<- | Hin]; [congruence|]). exact Hin.
Qed.

(** X18. A table that is not empty (it has at least one row and at least
    one column) and lacks one of the ten columns the formatting reads makes
    [_format_filtered_data] raise a [KeyError] for such a column: selecting
    some columns in the filter expression is enough to make the formatting,
    and with it the call, fail. A table without any column counts as empty
    and gets the sentence for an empty table instead. *)
Theorem missing_column_raises (w : World) (df : DataFrame) (label : string) :
  df_empty df = false ->
  In label (format_labels ++ ["tags"])%list ->
  ~ In label (columns df) ->
  exists missing,
    In missing (format_labels ++ ["tags"])%list /\
    _format_filtered_data w df = Raise (KeyError missing).
Proof.
  intros Hne Hin Hcol. unfold _format_filtered_data. rewrite Hne.
  unfold iterrows. unfold df_empty in Hne.
  destruct (columns df) as [|c cols] eqn:Hc; [discriminate|].
  destruct (records df) as [|cells rest]; [discriminate|].
  cbn [map format_rows].
  assert (Hmiss : getitem (combine (c :: cols) cells) label = Raise (KeyError label)).
  { apply getitem_absent. intros H. apply combine_keys in H. exact (Hcol H). }
  destruct (format_row_missing w _ Hin Hmiss) as (missing & Hm & ->).
  exists missing. split; [exact Hm | reflexivity].
Qed.

(** X18 on the seed table cut down to two columns. *)
Lemma two_columns_raise :
  df_empty (project ["dish_name"; "price"] create_food_database) = false /\
  ~ In "restaurant" (columns (project ["dish_name"; "price"] create_food_database)) /\
  exists missing,
    _format_filtered_data world (project ["dish_name"; "price"] create_food_database)
    = Raise (KeyError missing).
Proof.
  assert (Hcol : ~ In "restaurant"
                   (columns (project ["dish_name"; "price"] create_food_database))).
  { cbn. intros [H | [H | []]]; discriminate H. }
  split; [reflexivity|]. split; [exact Hcol|].
  destruct (@missing_column_raises world
              (project ["dish_name"; "price"] create_food_database) "restaurant"
              eq_refl ltac:(cbn; tauto) Hcol) as (missing & _ & H).
  exists missing. exact H.
Defined.

End MissingColumn.

(** ** White space beyond ASCII *)

Section NoBreakSpace.
Import PyStr.
Import AgentSystem.
Import OrchestratorSpec.
Import Scenarios.
Local Open Scope string_scope.

(** [strip] removes the no-break space and the next-line control as it
    removes a space. *)
Example strip_removes_latin1_spaces :
  strip (String (ascii_of_nat 160) (" len(food_df) " ++ String (ascii_of_nat 133) ""))
  = "len(food_df)".
Proof. reflexivity. Qed.

(** An answer whose expression is a no-break space only: the expression
    extracted is empty, and the call is the unfiltered one. *)
Example no_break_space_expression_is_unfiltered :
  let reply := "<pandas_query>" ++ String (ascii_of_nat 160) "</pandas_query>" in
  _extract_xml_content reply "pandas_query" = Some EmptyString /\
  process_query world (orchestrator reply "1. **Veg Thali**") "anything" "No previous history."
  = unfiltered world (orchestrator reply "1. **Veg Thali**")
      "anything" "No previous history." reply.
Proof. cbv zeta. split; reflexivity. Qed.

(** A comment line indented with a no-break space is dropped like any
    other. *)
Example indented_comment_is_dropped :
  clean_query ("# desserts" ++ nl ++ String (ascii_of_nat 160) "# only" ++ nl
               ++ "food_df")
  = "food_df".
Proof. reflexivity. Qed.

End NoBreakSpace.
